(** * Student record store and CSV import/export (srms.py)

    A shallow embedding of [SRMS] from [srms.py]: the in-memory list of
    [Student] records with its add / get / update / delete / list
    operations, [export_csv], and [import_csv] with its nested
    [next_free_roll], per-row validation, duplicate policies and summary
    dictionary.

    Modelling choices.
    - [self.students] is a Python list: a Rocq [list Student], in insertion
      order, duplicates representable (the code can create them).
    - Python [float] and its built-ins ([float(s)], comparison, [repr]) are
      an interface, [PyFloat]; everything is stated for every
      implementation of it.
    - Text is [string], one character per code point, which limits it to
      code points below 256; [str.strip], [str.isdigit] and [int] are
      written out for that range.
    - Exceptions are values: a computation returns [Ok a] or [Raise e]
      together with the state it reached, since a Python exception does
      not undo mutations made before it.
    - A CSV file is what [csv.reader] yields from it: a sequence of parsed
      records, possibly cut short by a reader error.  The quoting layer of
      the [csv] module, console output ([print]), and the JSON text of
      the snapshot ([_load]; [_save] catches its own errors) are outside
      the model.
    - [Path(csv_path).exists()] stands before the [try] of [import_csv]:
      [import_csv] is the function from the answer of that test on, and
      [import_csv_call] is the whole call, in which the test itself may
      raise. *)

From Stdlib Require Import ZArith List String Ascii Bool Lia Permutation Sorted.
From Stdlib Require Import Decimal DecimalString DecimalZ DecimalNat DecimalPos.
Import ListNotations.

Local Open Scope string_scope.
Local Open Scope list_scope.

(* ------------------------------------------------------------------ *)
(** ** Python text built-ins used by the code *)

Module PyStr.

(** A character stands for the code point of the same number, so text is
    limited to code points below 256. *)

(** [c.isspace()], the characters [str.strip()] removes: TAB, LF, VT, FF,
    CR, FS, GS, RS, US, space, NEL and the no-break space. *)
Definition is_space (c : ascii) : bool :=
  let n := nat_of_ascii c in
  (Nat.leb 9 n && Nat.leb n 13) || (Nat.leb 28 n && Nat.leb n 32)
  || Nat.eqb n 133 || Nat.eqb n 160.

Fixpoint lstrip (s : string) : string :=
  match s with
  | EmptyString => EmptyString
  | String c s' => if is_space c then lstrip s' else s
  end.

Fixpoint rstrip (s : string) : string :=
  match s with
  | EmptyString => EmptyString
  | String c s' =>
      match rstrip s' with
      | EmptyString => if is_space c then EmptyString else String c EmptyString
      | r => String c r
      end
  end.

(** [s.strip()] *)
Definition strip (s : string) : string := rstrip (lstrip s).

(** The decimal digits [0] to [9]. *)
Definition is_decimal (c : ascii) : bool :=
  let n := nat_of_ascii c in Nat.leb 48 n && Nat.leb n 57.

(** [c.isdigit()]: the decimal digits and the superscripts two, three
    and one, which [int] does not accept. *)
Definition is_digit (c : ascii) : bool :=
  let n := nat_of_ascii c in
  is_decimal c || Nat.eqb n 178 || Nat.eqb n 179 || Nat.eqb n 185.

Fixpoint all_digits (s : string) : bool :=
  match s with
  | EmptyString => true
  | String c s' => is_digit c && all_digits s'
  end.

Fixpoint all_decimal (s : string) : bool :=
  match s with
  | EmptyString => true
  | String c s' => is_decimal c && all_decimal s'
  end.

(** [s.isdigit()]: at least one character, all of them digits. *)
Definition isdigit (s : string) : bool :=
  match s with
  | EmptyString => false
  | _ => all_digits s
  end.

(** [str(n)] for integers. *)
Definition str_of_Z (z : Z) : string := NilZero.string_of_int (Z.to_int z).
Definition str_of_nat (n : nat) : string := NilZero.string_of_uint (Nat.to_uint n).

(** [sep.join(xs)] *)
Fixpoint join (sep : string) (xs : list string) : string :=
  match xs with
  | [] => ""
  | [x] => x
  | x :: rest => (x ++ sep ++ join sep rest)%string
  end.

(** Python truthiness of a string: [not s] is [is_empty s]. *)
Definition is_empty (s : string) : bool :=
  match s with EmptyString => true | _ => false end.

(** [c.lower()] for one character: the capital letters A to Z and the
    accented capitals 192 to 222 (the multiplication sign 215 apart) move
    up by 32; every other character below 256 is its own lower case. *)
Definition lower_char (c : ascii) : ascii :=
  let n := nat_of_ascii c in
  if (Nat.leb 65 n && Nat.leb n 90)
     || (Nat.leb 192 n && Nat.leb n 222 && negb (Nat.eqb n 215))
  then ascii_of_nat (n + 32)
  else c.

(** [s.lower()] for text below code point 256, where every character is
    lower-cased by itself ([str.lower] looks at the neighbours of a
    character only for the Greek capital sigma, and changes the length
    only for characters above 255). *)
Fixpoint lower (s : string) : string :=
  match s with
  | EmptyString => EmptyString
  | String c s' => String (lower_char c) (lower s')
  end.

(** [needle in hay]: [needle] starts at some position of [hay]. *)
Fixpoint contains (needle hay : string) : bool :=
  String.prefix needle hay
  || match hay with
     | EmptyString => false
     | String _ hay' => contains needle hay'
     end.

End PyStr.
Import PyStr.

(* ------------------------------------------------------------------ *)
(** ** Exceptions and results *)

Inductive exn : Type :=
| ValueError (msg : string)
| AttributeError (msg : string)
| OSError (msg : string)
| CsvError (msg : string).

(** [str(e)] *)
Definition str_exn (e : exn) : string :=
  match e with
  | ValueError m | AttributeError m | OSError m | CsvError m => m
  end.

Inductive result (A : Type) : Type :=
| Ok (a : A)
| Raise (e : exn).
Arguments Ok {A} a.
Arguments Raise {A} e.

(** [int(s)] as the code reaches it, i.e. behind the [isdigit] guard:
    the value of a non-empty string of decimal digits, [ValueError] for
    any other string that passes the guard.  (Signs, blanks and
    underscores, which [int] also reads, never get here; the
    interpreter's optional limit on the number of digits is left out.) *)
Definition py_int (s : string) : result Z :=
  let invalid :=
    ValueError ("invalid literal for int() with base 10: '" ++ s ++ "'") in
  match s with
  | EmptyString => Raise invalid
  | _ =>
      match NilEmpty.uint_of_string s with
      | Some d => Ok (Z.of_uint d)
      | None => Raise invalid
      end
  end.

(** The part of Python's [float] the code relies on. *)
Class PyFloat : Type := {
  float : Type;
  (** [float(s)]; [None] when it raises. *)
  py_float : string -> option float;
  (** [a <= b] *)
  float_leb : float -> float -> bool;
  (** the literals [0.0] and [100.0] *)
  float_0 : float;
  float_100 : float;
  (** the text [csv.DictWriter] writes for a float *)
  float_repr : float -> string
}.

(* ------------------------------------------------------------------ *)
(** ** The record store *)

Section Store.
Context {F : PyFloat}.

(** [@dataclass class Student] *)
Record Student : Type := mkStudent {
  roll_no : Z;
  name : string;
  class_name : string;
  marks : float
}.

(** [get_student_by_roll]: the first record with that roll number. *)
Definition get_student_by_roll (students : list Student) (r : Z) : option Student :=
  find (fun s => Z.eqb (roll_no s) r) students.

(** [add_student]: the returned flag and the list afterwards. *)
Definition add_student (students : list Student) (student : Student)
  : bool * list Student :=
  match get_student_by_roll students (roll_no student) with
  | Some _ => (false, students)
  | None => (true, students ++ [student])
  end.

(** One keyword argument of [update_student(roll_no, **kwargs)].

    [roll_no] is the method's own parameter, so it can never arrive as a
    keyword (the call would raise [TypeError] before the body runs); the
    keywords modelled are the three other fields and [__dict__], which
    the [hasattr] test lets through as well and whose assignment replaces
    all four fields at once.  A value of [None] is Python's [None];
    otherwise a field's value is of the field's type, and the value of
    [__dict__] is a dictionary holding the four fields with values of
    their types, given here as the record it describes.  Every other
    keyword ([__class__], names the record has no attribute for, values
    of other types) is outside the model. *)
Inductive kwarg : Type :=
| kw_name (v : option string)
| kw_class_name (v : option string)
| kw_marks (v : option float)
| kw_dict (v : option Student).

(** [if hasattr(s, k) and v is not None: setattr(s, k, v)] *)
Definition setattr_kw (s : Student) (kw : kwarg) : Student :=
  match kw with
  | kw_name (Some v) => mkStudent (roll_no s) v (class_name s) (marks s)
  | kw_class_name (Some v) => mkStudent (roll_no s) (name s) v (marks s)
  | kw_marks (Some v) => mkStudent (roll_no s) (name s) (class_name s) v
  | kw_dict (Some d) => d
  | _ => s
  end.

(** In-place mutation of the object [get_student_by_roll] returned: the
    first record with roll number [r] is replaced by [f] of it. *)
Fixpoint mutate_first (r : Z) (f : Student -> Student) (students : list Student)
  : list Student :=
  match students with
  | [] => []
  | s :: rest =>
      if Z.eqb (roll_no s) r then f s :: rest
      else s :: mutate_first r f rest
  end.

Definition update_student (students : list Student) (r : Z) (kwargs : list kwarg)
  : bool * list Student :=
  match get_student_by_roll students r with
  | None => (false, students)
  | Some _ =>
      (true, mutate_first r (fun s => fold_left setattr_kw kwargs s) students)
  end.

(** [self.students.remove(s)] for the [s] found by roll number. *)
Fixpoint remove_first (r : Z) (students : list Student) : list Student :=
  match students with
  | [] => []
  | s :: rest => if Z.eqb (roll_no s) r then rest else s :: remove_first r rest
  end.

Definition delete_student (students : list Student) (r : Z) : bool * list Student :=
  match get_student_by_roll students r with
  | None => (false, students)
  | Some _ => (true, remove_first r students)
  end.

(** [sorted(self.students, key=lambda s: s.roll_no)]: a stable sort. *)
Fixpoint insert_by_roll (x : Student) (l : list Student) : list Student :=
  match l with
  | [] => [x]
  | y :: l' =>
      if Z.leb (roll_no x) (roll_no y) then x :: l
      else y :: insert_by_roll x l'
  end.

Definition list_students (students : list Student) : list Student :=
  fold_right insert_by_roll [] students.

(** [search_by_name]: the records whose lower-cased name contains the
    stripped, lower-cased query, in list order. *)
Definition search_by_name (students : list Student) (name_query : string)
  : list Student :=
  let nq := lower (strip name_query) in
  filter (fun s => contains nq (lower (name s))) students.

(** [next_free_roll], the closure inside [import_csv]. *)
Definition next_free_roll (students : list Student) : Z :=
  match students with
  | [] => 1
  | s :: rest => (fold_left Z.max (map roll_no rest) (roll_no s) + 1)%Z
  end.

End Store.

(* ------------------------------------------------------------------ *)
(** ** CSV rows as [csv.DictReader] presents them *)

(** One step of iterating [csv.reader]: a parsed record, or an error
    raised by the reader (after which the iteration is over). *)
Inductive reader_item : Type :=
| Line (cells : list string)
| ReadError (e : exn).

(** What [import_csv] finds at [csv_path]: nothing
    ([Path(csv_path).exists()] is false), or a file whose [open] either
    raises or gives the records [csv.reader] will yield. *)
Inductive csv_file : Type :=
| NotFound
| Exists (opened : result (list reader_item)).

(** A [DictReader] row: column name to cell, [None] standing for the
    [restval] given to columns the record is too short for. *)
Definition row_dict : Type := list (string * option string).

(** [dict(zip(fieldnames, row))] followed by the [restval] fill. *)
Fixpoint zip_row (fieldnames cells : list string) : row_dict :=
  match fieldnames with
  | [] => []
  | k :: ks =>
      match cells with
      | [] => (k, None) :: zip_row ks []
      | c :: cs => (k, Some c) :: zip_row ks cs
      end
  end.

(** Dictionary lookup; of two columns with one name the later one wins,
    as in [dict(...)].  The outer [None] is "key absent". *)
Fixpoint dict_get (d : row_dict) (k : string) : option (option string) :=
  match d with
  | [] => None
  | (k', v) :: d' =>
      match dict_get d' k with
      | Some w => Some w
      | None => if String.eqb k' k then Some v else None
      end
  end.

(** [required = {"roll_no", "name", "class_name", "marks"}] *)
Definition required : list string := ["roll_no"; "name"; "class_name"; "marks"].

(** [a.issubset(b)] and [a == b] on sets given by their elements. *)
Definition issubset (a b : list string) : bool :=
  forallb (fun x => existsb (String.eqb x) b) a.

Definition set_eqb (a b : list string) : bool := issubset a b && issubset b a.

(** [reader.fieldnames]: the first record of the file, [None] if there is
    none; the rest is what remains to iterate. *)
Definition reader_fieldnames (lines : list reader_item)
  : result (option (list string) * list reader_item) :=
  match lines with
  | [] => Ok (None, [])
  | Line cells :: rest => Ok (Some cells, rest)
  | ReadError e :: _ => Raise e
  end.

(* ------------------------------------------------------------------ *)
(** ** The import summary *)

Record Summary : Type := mkSummary {
  read_rows : nat;
  imported : nat;
  skipped_duplicates : nat;
  overwritten : nat;
  reassigned : nat;
  invalid_rows : nat;
  errors : list string
}.

Definition empty_summary : Summary := mkSummary 0 0 0 0 0 0 [].

Definition bump_read_rows (m : Summary) : Summary :=
  mkSummary (S (read_rows m)) (imported m) (skipped_duplicates m)
            (overwritten m) (reassigned m) (invalid_rows m) (errors m).
Definition bump_imported (m : Summary) : Summary :=
  mkSummary (read_rows m) (S (imported m)) (skipped_duplicates m)
            (overwritten m) (reassigned m) (invalid_rows m) (errors m).
Definition bump_skipped_duplicates (m : Summary) : Summary :=
  mkSummary (read_rows m) (imported m) (S (skipped_duplicates m))
            (overwritten m) (reassigned m) (invalid_rows m) (errors m).
Definition bump_overwritten (m : Summary) : Summary :=
  mkSummary (read_rows m) (imported m) (skipped_duplicates m)
            (S (overwritten m)) (reassigned m) (invalid_rows m) (errors m).
Definition bump_reassigned (m : Summary) : Summary :=
  mkSummary (read_rows m) (imported m) (skipped_duplicates m)
            (overwritten m) (S (reassigned m)) (invalid_rows m) (errors m).
Definition bump_invalid_rows (m : Summary) : Summary :=
  mkSummary (read_rows m) (imported m) (skipped_duplicates m)
            (overwritten m) (reassigned m) (S (invalid_rows m)) (errors m).
(** [summary["errors"].append(msg)] *)
Definition append_error (msg : string) (m : Summary) : Summary :=
  mkSummary (read_rows m) (imported m) (skipped_duplicates m)
            (overwritten m) (reassigned m) (invalid_rows m) (errors m ++ [msg]).

(** The five classification counters added up. *)
Definition classified (m : Summary) : nat :=
  imported m + skipped_duplicates m + overwritten m + reassigned m + invalid_rows m.

(* ------------------------------------------------------------------ *)
(** ** Computations that mutate state and may raise *)

(** A computation over a state [St]: it ends normally with a value or
    with an exception, and in both cases leaves a state behind. *)
Definition M (St A : Type) : Type := St -> result A * St.

Definition ret {St A : Type} (a : A) : M St A := fun st => (Ok a, st).

Definition bind {St A B : Type} (m : M St A) (k : A -> M St B) : M St B :=
  fun st =>
    match m st with
    | (Ok a, st') => k a st'
    | (Raise e, st') => (Raise e, st')
    end.

Definition raise {St A : Type} (e : exn) : M St A := fun st => (Raise e, st).

(** A finished pure computation used as a step. *)
Definition lift {St A : Type} (r : result A) : M St A := fun st => (r, st).

(** [try: m  except Exception as e: h e] *)
Definition try_except {St A : Type} (m : M St A) (h : exn -> M St A) : M St A :=
  fun st =>
    match m st with
    | (Ok a, st') => (Ok a, st')
    | (Raise e, st') => h e st'
    end.

Definition get {St : Type} : M St St := fun st => (Ok st, st).
Definition modify {St : Type} (f : St -> St) : M St unit := fun st => (Ok tt, f st).

Declare Scope py_scope.
Delimit Scope py_scope with py.
Notation "x <- m ;; k" := (bind m (fun x => k))
  (at level 61, m at next level, right associativity) : py_scope.
Notation "m ;; k" := (bind m (fun _ => k))
  (at level 61, right associativity) : py_scope.

(** Sequencing of pure results. *)
Definition and_then {A B : Type} (r : result A) (k : A -> result B) : result B :=
  match r with
  | Ok a => k a
  | Raise e => Raise e
  end.
Notation "'let?' x := r 'in' k" := (and_then r (fun x => k))
  (at level 10, x name, r at level 100, k at level 200) : py_scope.

(* ------------------------------------------------------------------ *)
(** ** [import_csv] and [export_csv] *)

Section ImportCsv.
Context {F : PyFloat}.
Local Open Scope py_scope.

(** What [import_csv] mutates: [self.students] and its [summary] dict. *)
Record istate : Type := mkState {
  self_students : list Student;
  summary : Summary
}.

Definition on_students (f : list Student -> list Student) : M istate unit :=
  modify (fun st => mkState (f (self_students st)) (summary st)).
Definition on_summary (f : Summary -> Summary) : M istate unit :=
  modify (fun st => mkState (self_students st) (f (summary st))).

(** [row.get(k, default)] *)
Definition dict_get_default (d : row_dict) (k default : string) : option string :=
  match dict_get d k with
  | Some v => v
  | None => Some default
  end.

(** [v.strip()] on a cell that may be [None]. *)
Definition strip_cell (v : option string) : result string :=
  match v with
  | Some s => Ok (strip s)
  | None => Raise (AttributeError "'NoneType' object has no attribute 'strip'")
  end.

(** [(row.get(k) or "")] *)
Definition get_or_empty (d : row_dict) (k : string) : string :=
  match dict_get d k with
  | Some (Some s) => s
  | _ => ""
  end.

(** The validated content of a row. *)
Record parsed_row : Type := mkParsed {
  p_roll_no : Z;
  p_name : string;
  p_class_name : string;
  p_marks : float
}.

(** Lines 153-174, from reading the four cells to the last validation
    check.  Nothing here touches the store. *)
Definition validate_row (validate_marks : bool) (row : row_dict) : result parsed_row :=
  let? roll_no_raw := strip_cell (dict_get_default row "roll_no" "") in
  let name := strip (get_or_empty row "name") in
  let class_name := strip (get_or_empty row "class_name") in
  let? marks_raw := strip_cell (dict_get_default row "marks" "") in
  if negb (isdigit roll_no_raw) then Raise (ValueError "roll_no must be an integer")
  else
    let? roll_no := py_int roll_no_raw in
    let? marks :=
      match py_float marks_raw with
      | Some m => Ok m
      | None => Raise (ValueError "marks must be numeric")
      end in
    if validate_marks && negb (float_leb float_0 marks && float_leb marks float_100)
    then Raise (ValueError "marks must be between 0 and 100")
    else if is_empty name then Raise (ValueError "name cannot be empty")
    else if is_empty class_name then Raise (ValueError "class_name cannot be empty")
    else Ok (mkParsed roll_no name class_name marks).

(** [existing.name = name; existing.class_name = class_name;
    existing.marks = marks] *)
Definition overwrite_fields (p : parsed_row) (existing : Student) : Student :=
  mkStudent (roll_no existing) (p_name p) (p_class_name p) (p_marks p).

(** Lines 176-194: the lookup and the duplicate policy. *)
Definition resolve_row (duplicate_policy : string) (p : parsed_row) : M istate unit :=
  st <- get ;;
  match get_student_by_roll (self_students st) (p_roll_no p) with
  | Some _ =>
      if String.eqb duplicate_policy "skip" then
        on_summary bump_skipped_duplicates
      else if String.eqb duplicate_policy "overwrite" then
        on_students (mutate_first (p_roll_no p) (overwrite_fields p)) ;;
        on_summary bump_overwritten
      else if String.eqb duplicate_policy "reassign" then
        st' <- get ;;
        let new_roll := next_free_roll (self_students st') in
        on_students (fun l =>
          l ++ [mkStudent new_roll (p_name p) (p_class_name p) (p_marks p)]) ;;
        on_summary bump_reassigned
      else
        raise (ValueError ("Unknown duplicate_policy '" ++ duplicate_policy ++ "'"))
  | None =>
      on_students (fun l =>
        l ++ [mkStudent (p_roll_no p) (p_name p) (p_class_name p) (p_marks p)]) ;;
      on_summary bump_imported
  end.

(** The body of the inner [try]. *)
Definition row_body (duplicate_policy : string) (validate_marks : bool)
  (row : row_dict) : M istate unit :=
  p <- lift (validate_row validate_marks row) ;;
  resolve_row duplicate_policy p.

(** The [except Exception as e_row] handler of line [i]. *)
Definition row_handler (i : nat) (e_row : exn) : M istate unit :=
  on_summary bump_invalid_rows ;;
  on_summary (append_error ("Line " ++ str_of_nat i ++ ": " ++ str_exn e_row)).

(** One iteration of the loop for the row at line [i]. *)
Definition import_row (duplicate_policy : string) (validate_marks : bool)
  (i : nat) (row : row_dict) : M istate unit :=
  on_summary bump_read_rows ;;
  try_except (row_body duplicate_policy validate_marks row) (row_handler i).

(** [for i, row in enumerate(reader, start=2)].  [DictReader] passes
    over empty records; a reader error ends the loop by raising. *)
Fixpoint import_loop (duplicate_policy : string) (validate_marks : bool)
  (fieldnames : list string) (i : nat) (lines : list reader_item) : M istate unit :=
  match lines with
  | [] => ret tt
  | ReadError e :: _ => raise e
  | Line [] :: rest =>
      import_loop duplicate_policy validate_marks fieldnames i rest
  | Line cells :: rest =>
      import_row duplicate_policy validate_marks i (zip_row fieldnames cells) ;;
      import_loop duplicate_policy validate_marks fieldnames (S i) rest
  end.

(** The header test of line 144. *)
Definition header_rejected (names : list string) : bool :=
  negb (set_eqb names required) && negb (issubset required names).

(** The [with open(...)] block once the file is open.  (The code joins
    the names of a set, whose order is not fixed; the message here lists
    them in the order of the source text.) *)
Definition import_opened (duplicate_policy : string) (validate_marks : bool)
  (lines : list reader_item) : M istate unit :=
  hd <- lift (reader_fieldnames lines) ;;
  let names := match fst hd with Some l => l | None => [] end in
  if header_rejected names then
    on_summary (append_error ("CSV must contain headers: " ++ join ", " required))
  else
    import_loop duplicate_policy validate_marks names 2 (snd hd).

(** The outer [try] block: [open], then the [with] block. *)
Definition import_try (opened : result (list reader_item))
  (duplicate_policy : string) (validate_marks : bool) : M istate unit :=
  lines <- lift opened ;;
  import_opened duplicate_policy validate_marks lines.

(** [SRMS.import_csv] once [Path(csv_path).exists()] has answered (with
    [NotFound] or [Exists]): the returned summary (or the exception that
    leaves the function) and [self.students] afterwards. *)
Definition import_csv (students : list Student) (csv_path : string)
  (file : csv_file) (duplicate_policy : string) (validate_marks : bool)
  : result Summary * list Student :=
  let st0 := mkState students empty_summary in
  match file with
  | NotFound =>
      (Ok (append_error ("File '" ++ csv_path ++ "' not found.") empty_summary),
       students)
  | Exists opened =>
      let '(r, st) :=
        try_except
          (import_try opened duplicate_policy validate_marks)
          (fun e => on_summary (append_error ("Failed to import CSV: " ++ str_exn e)))
          st0 in
      match r with
      | Ok _ => (Ok (summary st), self_students st)
      | Raise e => (Raise e, self_students st)
      end
  end.

(** [Path(csv_path).exists()] at line 129, before the [try]: it answers,
    and the function goes on with what is at the path, or the [stat]
    behind it raises [OSError] (a name that is too long, a directory
    that may not be searched). *)
Inductive path_check : Type :=
| Checked (file : csv_file)
| CheckRaises (e : exn).

(** [SRMS.import_csv] from its first line: an exception of the existence
    test is caught by nothing and leaves the function, the store as it
    was. *)
Definition import_csv_call (students : list Student) (csv_path : string)
  (check : path_check) (duplicate_policy : string) (validate_marks : bool)
  : result Summary * list Student :=
  match check with
  | CheckRaises e => (Raise e, students)
  | Checked file =>
      import_csv students csv_path file duplicate_policy validate_marks
  end.

(** [fieldnames=["roll_no", "name", "class_name", "marks"]] *)
Definition export_fieldnames : list string :=
  ["roll_no"; "name"; "class_name"; "marks"].

(** [asdict(s)] as [DictWriter] writes it under the four field names. *)
Definition export_row (s : Student) : list string :=
  [str_of_Z (roll_no s); name s; class_name s; float_repr (marks s)].

(** [SRMS.export_csv]: the count returned and the records written, header
    first; [dest_opens] is whether [open(csv_path, "w")] succeeds. *)
Definition export_csv (students : list Student) (dest_opens : bool)
  : nat * option (list (list string)) :=
  if dest_opens then
    let rows := map export_row (list_students students) in
    (List.length rows, Some (export_fieldnames :: rows))
  else (0, None).

(** Reading back a file that holds the given records. *)
Definition file_of_records (records : list (list string)) : csv_file :=
  Exists (Ok (map Line records)).

(** *** The object with its data file

    [SRMS] as a whole: [self.students] and what [self.data_file] holds,
    given as the records last written to it ([None]: no file yet).  The
    JSON text itself is not modelled. *)
Record SRMS : Type := mkSRMS {
  srms_students : list Student;
  srms_data_file : option (list Student)
}.

(** [_save]: rewrite the data file with all records; when the file
    cannot be opened for writing the error is printed and nothing else
    happens. *)
Definition _save (can_write : bool) (self : SRMS) : SRMS :=
  if can_write
  then mkSRMS (srms_students self) (Some (srms_students self))
  else self.

(** The three mutating methods with their [self._save()]. *)
Definition add_student_saving (can_write : bool) (self : SRMS) (student : Student)
  : bool * SRMS :=
  match get_student_by_roll (srms_students self) (roll_no student) with
  | Some _ => (false, self)
  | None =>
      (true,
       _save can_write
         (mkSRMS (srms_students self ++ [student]) (srms_data_file self)))
  end.

Definition update_student_saving (can_write : bool) (self : SRMS) (r : Z)
  (kwargs : list kwarg) : bool * SRMS :=
  match get_student_by_roll (srms_students self) r with
  | None => (false, self)
  | Some _ =>
      (true,
       _save can_write
         (mkSRMS
            (mutate_first r (fun s => fold_left setattr_kw kwargs s)
               (srms_students self))
            (srms_data_file self)))
  end.

Definition delete_student_saving (can_write : bool) (self : SRMS) (r : Z)
  : bool * SRMS :=
  match get_student_by_roll (srms_students self) r with
  | None => (false, self)
  | Some _ =>
      (true,
       _save can_write
         (mkSRMS (remove_first r (srms_students self)) (srms_data_file self)))
  end.

(** What [import_csv] mutates when the data file is in the picture. *)
Record pstate : Type := mkP {
  p_self : SRMS;
  p_summary : Summary
}.

(** A computation on [self.students] and [summary] run inside the larger
    state: the data file is not touched. *)
Definition with_store {A : Type} (m : M istate A) : M pstate A :=
  fun ps =>
    let '(r, st) := m (mkState (srms_students (p_self ps)) (p_summary ps)) in
    (r, mkP (mkSRMS (self_students st) (srms_data_file (p_self ps))) (summary st)).

(** The outer [try] block with its [self._save()] after the loop: the
    header branch returns before it, an exception skips it. *)
Definition import_try_saving (can_write : bool)
  (opened : result (list reader_item)) (duplicate_policy : string)
  (validate_marks : bool) : M pstate unit :=
  lines <- lift opened ;;
  hd <- lift (reader_fieldnames lines) ;;
  let names := match fst hd with Some l => l | None => [] end in
  if header_rejected names then
    with_store
      (on_summary (append_error ("CSV must contain headers: " ++ join ", " required)))
  else
    with_store (import_loop duplicate_policy validate_marks names 2 (snd hd)) ;;
    modify (fun ps => mkP (_save can_write (p_self ps)) (p_summary ps)).

(** [SRMS.import_csv] with the data file. *)
Definition import_csv_saving (can_write : bool) (self : SRMS) (csv_path : string)
  (file : csv_file) (duplicate_policy : string) (validate_marks : bool)
  : result Summary * SRMS :=
  let ps0 := mkP self empty_summary in
  match file with
  | NotFound =>
      (Ok (append_error ("File '" ++ csv_path ++ "' not found.") empty_summary),
       self)
  | Exists opened =>
      let '(r, ps) :=
        try_except
          (import_try_saving can_write opened duplicate_policy validate_marks)
          (fun e =>
             with_store
               (on_summary (append_error ("Failed to import CSV: " ++ str_exn e))))
          ps0 in
      match r with
      | Ok _ => (Ok (p_summary ps), p_self ps)
      | Raise e => (Raise e, p_self ps)
      end
  end.

(** *** The update branch of the menu

    Lines 261-270 of [main]: the three answers after the roll number
    become the keyword arguments of [update_student]; a blank answer
    becomes [None], marks that do not parse raise [ValueError] (and
    [main] prints "Invalid input." without calling [update_student]). *)
Definition menu_update_kwargs (name_answer class_answer marks_answer : string)
  : result (list kwarg) :=
  let name := strip name_answer in
  let cls := strip class_answer in
  let marks_str := strip marks_answer in
  let? marks :=
    if is_empty marks_str then Ok None
    else
      match py_float marks_str with
      | Some m => Ok (Some m)
      | None => Raise (ValueError "could not convert string to float")
      end in
  Ok [kw_name (if is_empty name then None else Some name);
      kw_class_name (if is_empty cls then None else Some cls);
      kw_marks marks].

End ImportCsv.

(* ------------------------------------------------------------------ *)
(** ** A small implementation of [PyFloat] for running the code

    Marks restricted to whole numbers written as digit strings.  It is
    used only to evaluate the model on concrete stores and files. *)

Definition whole_marks : PyFloat := {|
  float := Z;
  py_float := fun s =>
    if isdigit s then
      match py_int s with
      | Ok z => Some z
      | Raise _ => None
      end
    else None;
  float_leb := Z.leb;
  float_0 := 0%Z;
  float_100 := 100%Z;
  float_repr := str_of_Z
|}.

(** [Student(roll_no, name, class_name, marks)] with whole-number marks. *)
Definition student (r : Z) (n c : string) (m : Z) : @Student whole_marks :=
  @mkStudent whole_marks r n c m.

(** A validated row with whole-number marks. *)
Definition parsed (r : Z) (n c : string) (m : Z) : @parsed_row whole_marks :=
  @mkParsed whole_marks r n c m.

(* ------------------------------------------------------------------ *)
(** ** Vocabulary of the statements below *)

Section Vocabulary.
Context {F : PyFloat}.

(** The state after line [i] was counted as read and then as invalid
    because of [e]. *)
Definition marked_invalid (i : nat) (e : exn) (st : istate) : istate :=
  mkState (self_students st)
    (append_error ("Line " ++ str_of_nat i ++ ": " ++ str_exn e)
       (bump_invalid_rows (bump_read_rows (summary st)))).

(** [duplicate_policy] is none of the three documented values. *)
Definition unknown_policy (duplicate_policy : string) : Prop :=
  duplicate_policy <> "skip" /\ duplicate_policy <> "overwrite"
  /\ duplicate_policy <> "reassign".

(** The ways a row can fail before the store is consulted. *)
Inductive row_fault (validate_marks : bool) (row : row_dict) : Prop :=
| fault_missing_key :
    dict_get row "roll_no" = Some None -> row_fault validate_marks row
| fault_missing_marks :
    dict_get row "marks" = Some None -> row_fault validate_marks row
| fault_key_not_integer (s : string) :
    dict_get_default row "roll_no" "" = Some s ->
    isdigit (strip s) = false -> row_fault validate_marks row
| fault_marks_not_numeric (s : string) :
    dict_get_default row "marks" "" = Some s ->
    py_float (strip s) = None -> row_fault validate_marks row
| fault_marks_out_of_range (s : string) (m : float) :
    validate_marks = true ->
    dict_get_default row "marks" "" = Some s ->
    py_float (strip s) = Some m ->
    float_leb float_0 m && float_leb m float_100 = false ->
    row_fault validate_marks row
| fault_empty_name :
    strip (get_or_empty row "name") = "" -> row_fault validate_marks row
| fault_empty_class_name :
    strip (get_or_empty row "class_name") = "" -> row_fault validate_marks row.

(** The counters balance: every row read is classified once. *)
Definition balanced (m : Summary) : Prop := read_rows m = classified m.


(** What [import_csv] returns when the header test rejects the file. *)
Definition header_failure : Summary :=
  append_error ("CSV must contain headers: " ++ join ", " required) empty_summary.


(** The non-empty records among the lines: the data rows [DictReader]
    yields. *)
Fixpoint data_rows (lines : list reader_item) : nat :=
  match lines with
  | [] => 0
  | Line [] :: rest => data_rows rest
  | Line _ :: rest => S (data_rows rest)
  | ReadError _ :: rest => data_rows rest
  end.

(** No reader error among the lines. *)
Fixpoint readable (lines : list reader_item) : bool :=
  match lines with
  | [] => true
  | Line _ :: rest => readable rest
  | ReadError _ :: _ => false
  end.

(** The roll numbers of a store, in list order. *)
Definition rolls (students : list Student) : list Z := map roll_no students.

(** A record with non-empty name and class. *)
Definition named (s : Student) : Prop := name s <> "" /\ class_name s <> "".

(** A keyword argument that stores no empty name or class: a name or
    class that is not empty, marks, or any keyword given [None]; a
    [__dict__] that is assigned does not count. *)
Definition kw_keeps_names (kw : kwarg) : Prop :=
  match kw with
  | kw_name (Some v) | kw_class_name (Some v) => v <> ""
  | kw_dict (Some _) => False
  | _ => True
  end.

(** A keyword argument that leaves [roll_no] alone: name, class, marks,
    or any keyword given [None]; a [__dict__] that is assigned does not
    count. *)
Definition kw_keeps_roll (kw : kwarg) : Prop :=
  match kw with
  | kw_dict (Some _) => False
  | _ => True
  end.

(** [export_csv] to a file that can be written, then [import_csv] of that
    file into a store that starts empty, under "skip": the count
    [export_csv] returns and what [import_csv] returns and leaves. *)
Definition export_then_import (students : list Student) (csv_path : string)
  (validate_marks : bool) : option (nat * (result Summary * list Student)) :=
  match export_csv students true with
  | (count, Some records) =>
      Some (count,
            import_csv [] csv_path (file_of_records records) "skip" validate_marks)
  | (_, None) => None
  end.

(** A record that [export_csv] writes in a form [import_csv] accepts and
    reads back unchanged: a roll number that is not negative, a name and
    a class that are non-empty and have no surrounding whitespace, and
    marks whose written form parses back to them and, when the range is
    validated, lie in it. *)
Definition round_trips (validate_marks : bool) (s : Student) : Prop :=
  (0 <= roll_no s)%Z
  /\ strip (name s) = name s /\ name s <> ""
  /\ strip (class_name s) = class_name s /\ class_name s <> ""
  /\ py_float (strip (float_repr (marks s))) = Some (marks s)
  /\ (validate_marks = true ->
      float_leb float_0 (marks s) && float_leb (marks s) float_100 = true).

(** [a] may stand before [b] in the listing. *)
Definition roll_le (a b : Student) : Prop := (roll_no a <= roll_no b)%Z.

(** [duplicate_policy] is one of the three documented values. *)
Definition known_policy (duplicate_policy : string) : Prop :=
  duplicate_policy = "skip" \/ duplicate_policy = "overwrite"
  \/ duplicate_policy = "reassign".

(** The data rows the loop gets to: the non-empty records before the
    first reader error. *)
Fixpoint processed_rows (lines : list reader_item) : list (list string) :=
  match lines with
  | [] => []
  | ReadError _ :: _ => []
  | Line [] :: rest => processed_rows rest
  | Line cells :: rest => cells :: processed_rows rest
  end.

(** The lines without the empty records. *)
Fixpoint drop_blank (lines : list reader_item) : list reader_item :=
  match lines with
  | [] => []
  | Line [] :: rest => drop_blank rest
  | item :: rest => item :: drop_blank rest
  end.

(** The row with these cells under this header passes validation. *)
Definition row_valid (validate_marks : bool) (names cells : list string) : bool :=
  match validate_row validate_marks (zip_row names cells) with
  | Ok _ => true
  | Raise _ => false
  end.

(** How many of the rows fail validation. *)
Definition count_invalid (validate_marks : bool) (names : list string)
  (rows : list (list string)) : nat :=
  List.length (filter (fun cells => negb (row_valid validate_marks names cells)) rows).

(** How the summary of a second "skip" import of one file moves, from
    [m2] to [m2'], while that of the first moved from [m1] to [m1']: the
    same rows read and invalid, with the same messages; nothing
    imported; skipped what the first run imported or skipped. *)
Definition rerun_related (m1 m1' m2 m2' : Summary) : Prop :=
  read_rows m2' + read_rows m1 = read_rows m2 + read_rows m1'
  /\ imported m2' = imported m2
  /\ skipped_duplicates m2' + imported m1 + skipped_duplicates m1
     = skipped_duplicates m2 + imported m1' + skipped_duplicates m1'
  /\ overwritten m2' = overwritten m2
  /\ reassigned m2' = reassigned m2
  /\ invalid_rows m2' + invalid_rows m1 = invalid_rows m2 + invalid_rows m1'
  /\ exists errs, errors m1' = errors m1 ++ errs /\ errors m2' = errors m2 ++ errs.

(** The data file holds exactly the records in memory. *)
Definition in_sync (self : SRMS) : Prop :=
  srms_data_file self = Some (srms_students self).

End Vocabulary.

(* ================================================================== *)
(** * Properties *)

(* ------------------------------------------------------------------ *)
(** ** One row of the import loop, case by case *)

Section RowSteps.
Context {F : PyFloat}.

Ltac run :=
  unfold import_row, row_body, resolve_row, row_handler, try_except, bind,
    lift, get, on_students, on_summary, modify, raise, ret; simpl.

Lemma import_row_invalid policy validate i row st e :
  validate_row validate row = Raise e ->
  import_row policy validate i row st = (Ok tt, marked_invalid i e st).
Proof.
  intros Hv. run. rewrite Hv. reflexivity.
Qed.

Lemma import_row_new policy validate i row st p :
  validate_row validate row = Ok p ->
  get_student_by_roll (self_students st) (p_roll_no p) = None ->
  import_row policy validate i row st =
    (Ok tt,
     mkState
       (self_students st ++
          [mkStudent (p_roll_no p) (p_name p) (p_class_name p) (p_marks p)])
       (bump_imported (bump_read_rows (summary st)))).
Proof.
  intros Hv Hg. run. rewrite Hv. simpl. rewrite Hg. reflexivity.
Qed.

Lemma import_row_skip validate i row st p s :
  validate_row validate row = Ok p ->
  get_student_by_roll (self_students st) (p_roll_no p) = Some s ->
  import_row "skip" validate i row st =
    (Ok tt,
     mkState (self_students st)
       (bump_skipped_duplicates (bump_read_rows (summary st)))).
Proof.
  intros Hv Hg. run. rewrite Hv. simpl. rewrite Hg. reflexivity.
Qed.

Lemma import_row_overwrite validate i row st p s :
  validate_row validate row = Ok p ->
  get_student_by_roll (self_students st) (p_roll_no p) = Some s ->
  import_row "overwrite" validate i row st =
    (Ok tt,
     mkState (mutate_first (p_roll_no p) (overwrite_fields p) (self_students st))
       (bump_overwritten (bump_read_rows (summary st)))).
Proof.
  intros Hv Hg. run. rewrite Hv. simpl. rewrite Hg. reflexivity.
Qed.

Lemma import_row_reassign validate i row st p s :
  validate_row validate row = Ok p ->
  get_student_by_roll (self_students st) (p_roll_no p) = Some s ->
  import_row "reassign" validate i row st =
    (Ok tt,
     mkState
       (self_students st ++
          [mkStudent (next_free_roll (self_students st))
             (p_name p) (p_class_name p) (p_marks p)])
       (bump_reassigned (bump_read_rows (summary st)))).
Proof.
  intros Hv Hg. run. rewrite Hv. simpl. rewrite Hg. reflexivity.
Qed.

Lemma import_row_unknown_policy policy validate i row st p s :
  unknown_policy policy ->
  validate_row validate row = Ok p ->
  get_student_by_roll (self_students st) (p_roll_no p) = Some s ->
  import_row policy validate i row st =
    (Ok tt,
     marked_invalid i
       (ValueError ("Unknown duplicate_policy '" ++ policy ++ "'")) st).
Proof.
  intros (H1 & H2 & H3) Hv Hg. run. rewrite Hv. simpl. rewrite Hg.
  apply String.eqb_neq in H1, H2, H3. rewrite H1, H2, H3. reflexivity.
Qed.

(** The inner [try] body leaves the state as it found it whenever it
    raises: every [raise] comes before the first mutation. *)
Lemma row_body_raise_keeps_state policy validate row st e st' :
  row_body policy validate row st = (Raise e, st') -> st' = st.
Proof.
  unfold row_body, resolve_row, bind, lift, get, on_students, on_summary,
    modify, raise. simpl.
  destruct (validate_row validate row) as [p|e0]; [|intros H; now inversion H].
  destruct (get_student_by_roll (self_students st) (p_roll_no p)).
  - destruct (String.eqb policy "skip"); [discriminate|].
    destruct (String.eqb policy "overwrite"); [discriminate|].
    destruct (String.eqb policy "reassign"); [discriminate|].
    intros H; now inversion H.
  - discriminate.
Qed.

(** Whether and how the body raises depends on the store only, not on
    the summary; so a raise seen from [st] is the one the loop handles. *)
Lemma row_body_raise_import_row policy validate i row st e st1 :
  row_body policy validate row st = (Raise e, st1) ->
  import_row policy validate i row st = (Ok tt, marked_invalid i e st).
Proof.
  unfold import_row, row_handler, try_except, row_body, resolve_row, bind,
    lift, get, on_students, on_summary, modify, raise. cbn [fst snd self_students].
  destruct (validate_row validate row) as [p|e0].
  2:{ intros H. injection H as <- _. reflexivity. }
  destruct (get_student_by_roll (self_students st) (p_roll_no p)).
  - destruct (String.eqb policy "skip"); [discriminate|].
    destruct (String.eqb policy "overwrite"); [discriminate|].
    destruct (String.eqb policy "reassign"); [discriminate|].
    intros H. injection H as <- _. reflexivity.
  - discriminate.
Qed.

(** A row never makes the loop body raise. *)
Lemma import_row_returns policy validate i row st :
  exists st', import_row policy validate i row st = (Ok tt, st').
Proof.
  destruct (validate_row validate row) as [p|e] eqn:Hv.
  2:{ eexists. apply import_row_invalid; eassumption. }
  destruct (get_student_by_roll (self_students st) (p_roll_no p)) as [s|] eqn:Hg.
  2:{ eexists. eapply import_row_new; eassumption. }
  destruct (String.eqb policy "skip") eqn:E1.
  { apply String.eqb_eq in E1; subst. eexists. eapply import_row_skip; eassumption. }
  destruct (String.eqb policy "overwrite") eqn:E2.
  { apply String.eqb_eq in E2; subst. eexists. eapply import_row_overwrite; eassumption. }
  destruct (String.eqb policy "reassign") eqn:E3.
  { apply String.eqb_eq in E3; subst. eexists. eapply import_row_reassign; eassumption. }
  eexists. eapply import_row_unknown_policy; try eassumption.
  apply String.eqb_neq in E1, E2, E3. repeat split; assumption.
Qed.

End RowSteps.

(* ------------------------------------------------------------------ *)
(** ** The loop and the function around it *)

Section Loop.
Context {F : PyFloat}.

(** Every outcome of one row, as a disjunction on the state reached. *)
Lemma import_row_cases policy validate i row st :
  exists st', import_row policy validate i row st = (Ok tt, st') /\
    ((exists e, st' = marked_invalid i e st)
     \/ (exists p, validate_row validate row = Ok p
           /\ get_student_by_roll (self_students st) (p_roll_no p) = None
           /\ st' = mkState
                (self_students st ++
                   [mkStudent (p_roll_no p) (p_name p) (p_class_name p) (p_marks p)])
                (bump_imported (bump_read_rows (summary st))))
     \/ (exists p s, validate_row validate row = Ok p
           /\ get_student_by_roll (self_students st) (p_roll_no p) = Some s
           /\ ((policy = "skip"
                /\ st' = mkState (self_students st)
                     (bump_skipped_duplicates (bump_read_rows (summary st))))
               \/ (policy = "overwrite"
                   /\ st' = mkState
                        (mutate_first (p_roll_no p) (overwrite_fields p)
                           (self_students st))
                        (bump_overwritten (bump_read_rows (summary st))))
               \/ (policy = "reassign"
                   /\ st' = mkState
                        (self_students st ++
                           [mkStudent (next_free_roll (self_students st))
                              (p_name p) (p_class_name p) (p_marks p)])
                        (bump_reassigned (bump_read_rows (summary st))))))).
Proof.
  destruct (validate_row validate row) as [p|e] eqn:Hv.
  2:{ eexists; split; [apply import_row_invalid; eassumption|]. left; eauto. }
  destruct (get_student_by_roll (self_students st) (p_roll_no p)) as [s|] eqn:Hg.
  2:{ eexists; split; [eapply import_row_new; eassumption|].
      right; left. exists p. auto. }
  destruct (String.eqb policy "skip") eqn:E1.
  { apply String.eqb_eq in E1; subst.
    eexists; split; [eapply import_row_skip; eassumption|].
    right; right. exists p, s. auto. }
  destruct (String.eqb policy "overwrite") eqn:E2.
  { apply String.eqb_eq in E2; subst.
    eexists; split; [eapply import_row_overwrite; eassumption|].
    right; right. exists p, s. auto 6. }
  destruct (String.eqb policy "reassign") eqn:E3.
  { apply String.eqb_eq in E3; subst.
    eexists; split; [eapply import_row_reassign; eassumption|].
    right; right. exists p, s. auto 6. }
  apply String.eqb_neq in E1, E2, E3.
  eexists; split.
  - eapply import_row_unknown_policy; try eassumption. repeat split; assumption.
  - left; eauto.
Qed.

(** The loop on a non-empty record: one row, then the rest at the next
    line number. *)
Lemma import_loop_step policy validate names i c cs rest st st' :
  import_row policy validate i (zip_row names (c :: cs)) st = (Ok tt, st') ->
  import_loop policy validate names i (Line (c :: cs) :: rest) st =
  import_loop policy validate names (S i) rest st'.
Proof.
  intros H. simpl. unfold bind at 1. rewrite H. reflexivity.
Qed.

(** A property of the state that every row preserves holds when the
    loop stops, however it stops. *)
Lemma import_loop_invariant (P : istate -> Prop) policy validate names :
  (forall i row st st',
      import_row policy validate i row st = (Ok tt, st') -> P st -> P st') ->
  forall lines i st, P st ->
    P (snd (import_loop policy validate names i lines st)).
Proof.
  intros Hrow lines. induction lines as [|[cells|e] rest IH]; intros i st HP.
  - exact HP.
  - destruct cells as [|c cs].
    + simpl. apply IH, HP.
    + destruct (import_row_returns policy validate i (zip_row names (c :: cs)) st)
        as [st' Hst'].
      rewrite (import_loop_step _ _ _ _ _ _ _ _ _ Hst').
      apply IH. eapply Hrow; eassumption.
  - exact HP.
Qed.

(** The state [import_csv] ends in, for a file that exists: the state
    the outer [try] reached, with the failure message appended when it
    raised. *)
Lemma import_csv_exists students path opened policy validate :
  exists st,
    import_csv students path (Exists opened) policy validate
      = (Ok (summary st), self_students st)
    /\ (let r := import_try opened policy validate (mkState students empty_summary) in
        (fst r = Ok tt /\ st = snd r)
        \/ (exists e, fst r = Raise e
              /\ st = mkState (self_students (snd r))
                        (append_error ("Failed to import CSV: " ++ str_exn e)
                           (summary (snd r))))).
Proof.
  unfold import_csv, try_except.
  destruct (import_try opened policy validate (mkState students empty_summary))
    as [[[]|e] st1] eqn:E.
  - exists st1. split; [reflexivity|]. left; auto.
  - exists (mkState (self_students st1)
              (append_error ("Failed to import CSV: " ++ str_exn e) (summary st1))).
    split; [reflexivity|]. right. exists e. auto.
Qed.

(** The state the outer [try] reaches is the initial one, the initial one
    with a header message, or the one the loop stopped in. *)
Lemma import_try_state opened policy validate st0 :
  let st := snd (import_try opened policy validate st0) in
  st = st0
  \/ (exists msg, st = mkState (self_students st0) (append_error msg (summary st0)))
  \/ (exists names i lines,
        st = snd (import_loop policy validate names i lines st0)).
Proof.
  unfold import_try, import_opened, bind, lift.
  destruct opened as [lines|e]; [|now left].
  destruct lines as [|[cells|e] rest]; cbn [reader_fieldnames fst snd].
  - right; left. eexists. reflexivity.
  - destruct (header_rejected cells); [right; left; eexists; reflexivity|].
    right; right. eexists _, _, _. reflexivity.
  - now left.
Qed.

(** An invariant of the state that rows and appended messages preserve
    holds of the state [import_csv] ends in. *)
Lemma import_csv_invariant (P : istate -> Prop) students path opened policy validate :
  (forall i row st st',
      import_row policy validate i row st = (Ok tt, st') -> P st -> P st') ->
  (forall st msg, P st -> P (mkState (self_students st) (append_error msg (summary st)))) ->
  P (mkState students empty_summary) ->
  exists st,
    import_csv students path (Exists opened) policy validate
      = (Ok (summary st), self_students st) /\ P st.
Proof.
  intros Hrow Hmsg H0.
  destruct (import_csv_exists students path opened policy validate)
    as (st & Heq & Hst).
  exists st. split; [exact Heq|].
  assert (Htry : P (snd (import_try opened policy validate
                           (mkState students empty_summary)))).
  { destruct (import_try_state opened policy validate (mkState students empty_summary))
      as [E|[(msg & E)|(names & i & lines & E)]]; rewrite E.
    - exact H0.
    - apply (Hmsg _ msg H0).
    - apply import_loop_invariant; assumption. }
  simpl in Hst. destruct Hst as [[_ ->]|(e & _ & ->)].
  - exact Htry.
  - apply Hmsg, Htry.
Qed.

End Loop.

(* ------------------------------------------------------------------ *)
(** ** Counters and error isolation *)

Section Counters.
Context {F : PyFloat}.

Lemma import_row_balanced policy validate i row st st' :
  import_row policy validate i row st = (Ok tt, st') ->
  balanced (summary st) -> balanced (summary st').
Proof.
  intros H Hb.
  destruct (import_row_cases policy validate i row st) as (st1 & H1 & Hc).
  rewrite H in H1. injection H1 as <-.
  unfold balanced, classified in *.
  destruct Hc as [(e & ->)|[(p & _ & _ & ->)|(p & s & _ & _ & Hc)]];
    [| |destruct Hc as [(_ & ->)|[(_ & ->)|(_ & ->)]]]; simpl; lia.
Qed.

Lemma import_row_read_rows policy validate i row st st' :
  import_row policy validate i row st = (Ok tt, st') ->
  read_rows (summary st') = S (read_rows (summary st)).
Proof.
  intros H.
  destruct (import_row_cases policy validate i row st) as (st1 & H1 & Hc).
  rewrite H in H1. injection H1 as <-.
  destruct Hc as [(e & ->)|[(p & _ & _ & ->)|(p & s & _ & _ & Hc)]];
    [| |destruct Hc as [(_ & ->)|[(_ & ->)|(_ & ->)]]]; reflexivity.
Qed.


(** Without a reader error the loop ends normally, having read every
    data row. *)
Lemma import_loop_readable policy validate names lines :
  readable lines = true ->
  forall i st,
    fst (import_loop policy validate names i lines st) = Ok tt
    /\ read_rows (summary (snd (import_loop policy validate names i lines st)))
       = read_rows (summary st) + data_rows lines.
Proof.
  induction lines as [|[cells|e] rest IH]; intros Hr i st.
  - simpl. split; [reflexivity|lia].
  - destruct cells as [|c cs].
    + simpl. apply IH, Hr.
    + destruct (import_row_returns policy validate i (zip_row names (c :: cs)) st)
        as [st' Hst'].
      rewrite (import_loop_step _ _ _ _ _ _ _ _ _ Hst').
      destruct (IH Hr (S i) st') as [IH1 IH2]. split; [exact IH1|].
      rewrite IH2, (import_row_read_rows _ _ _ _ _ _ Hst'). simpl. lia.
  - discriminate.
Qed.



(** A row with a fault does not pass validation. *)
Lemma row_fault_raises validate row :
  row_fault validate row -> exists e, validate_row validate row = Raise e.
Proof.
  intros Hf. unfold validate_row, and_then.
  destruct (dict_get_default row "roll_no" "") as [rs|] eqn:Er;
    [|eexists; reflexivity].
  destruct (dict_get_default row "marks" "") as [ms|] eqn:Em;
    [|eexists; reflexivity].
  cbn [strip_cell].
  destruct (isdigit (strip rs)) eqn:Ed; [|eexists; reflexivity].
  cbn [negb].
  destruct (py_int (strip rs)) as [z|e]; [|eexists; reflexivity].
  destruct (py_float (strip ms)) as [m|] eqn:Ef; [|eexists; reflexivity].
  destruct (validate && negb (float_leb float_0 m && float_leb m float_100)) eqn:Ev;
    [eexists; reflexivity|].
  destruct (is_empty (strip (get_or_empty row "name"))) eqn:En;
    [eexists; reflexivity|].
  destruct (is_empty (strip (get_or_empty row "class_name"))) eqn:Ec;
    [eexists; reflexivity|].
  exfalso. destruct Hf as [H|H|s H1 H2|s H1 H2|s m' Hv H1 H2 H3|H|H].
  - unfold dict_get_default in Er. rewrite H in Er. discriminate.
  - unfold dict_get_default in Em. rewrite H in Em. discriminate.
  - congruence.
  - congruence.
  - assert (s = ms) by congruence. subst s.
    assert (m' = m) by congruence. subst m'.
    rewrite Hv, H3 in Ev. discriminate.
  - rewrite H in En. discriminate.
  - rewrite H in Ec. discriminate.
Qed.

(** [import_csv] ends by returning a summary. *)
Lemma import_csv_always_ok students path file policy validate :
  exists out students',
    import_csv students path file policy validate = (Ok out, students').
Proof.
  destruct file as [|opened].
  - eexists _, _. reflexivity.
  - destruct (import_csv_exists students path opened policy validate)
      as (st & Heq & _).
    eauto.
Qed.

(** C3: for every import run the returned summary satisfies
    read_rows = imported + skipped_duplicates + overwritten + reassigned
    + invalid_rows. *)
Theorem import_csv_read_rows_classified
  (students : list Student) (csv_path : string) (file : csv_file)
  (duplicate_policy : string) (validate_marks : bool) :
  exists out students',
    import_csv students csv_path file duplicate_policy validate_marks
      = (Ok out, students')
    /\ read_rows out =
       imported out + skipped_duplicates out + overwritten out
       + reassigned out + invalid_rows out.
Proof.
  destruct file as [|opened].
  - eexists _, _. split; reflexivity.
  - destruct (import_csv_invariant (fun st => balanced (summary st))
                students csv_path opened duplicate_policy validate_marks)
      as (st & Heq & Hb).
    + intros i row st st'. apply import_row_balanced.
    + intros st msg Hb. exact Hb.
    + reflexivity.
    + exists (summary st), (self_students st). split; [exact Heq|exact Hb].
Qed.

(** Once the existence test has answered, [import_csv] always returns a
    summary, never an exception; a row that fails validation (missing
    cell, non-integer key, non-numeric or out-of-range marks, empty name
    or class) is counted invalid with a message carrying its line
    number, the store is left as it was, and the loop goes on with the
    next row; and whatever else makes the row body raise leaves the
    store as it was. *)
Theorem import_csv_returns_and_isolates_row_failures
  (students : list Student) (csv_path : string) (file : csv_file)
  (duplicate_policy : string) (validate_marks : bool) :
  (exists out students',
      import_csv students csv_path file duplicate_policy validate_marks
        = (Ok out, students'))
  /\ (forall names i c cs rest st,
        row_fault validate_marks (zip_row names (c :: cs)) ->
        exists e,
          import_loop duplicate_policy validate_marks names i
            (Line (c :: cs) :: rest) st
          = import_loop duplicate_policy validate_marks names (S i) rest
              (marked_invalid i e st))
  /\ (forall names i c cs rest st e st1,
        row_body duplicate_policy validate_marks (zip_row names (c :: cs)) st
          = (Raise e, st1) ->
        st1 = st
        /\ import_loop duplicate_policy validate_marks names i
             (Line (c :: cs) :: rest) st
           = import_loop duplicate_policy validate_marks names (S i) rest
               (marked_invalid i e st)).
Proof.
  split; [|split].
  - apply import_csv_always_ok.
  - intros names i c cs rest st Hf.
    destruct (row_fault_raises _ _ Hf) as [e He].
    exists e. apply import_loop_step. apply import_row_invalid, He.
  - intros names i c cs rest st e st1 Hb.
    pose proof (row_body_raise_keeps_state _ _ _ _ _ _ Hb) as ->.
    split; [reflexivity|].
    apply import_loop_step. eapply row_body_raise_import_row, Hb.
Qed.

(** C9 fails on the code: when [Path(csv_path).exists()] raises, as it
    does with [OSError] for a path whose name is too long, the exception
    leaves [import_csv]: no summary is returned.  With an answer of the
    test the call is [import_csv] on what was found. *)
Theorem import_csv_call_raises_when_existence_test_raises
  (students : list Student) (csv_path : string) (e : exn) (file : csv_file)
  (duplicate_policy : string) (validate_marks : bool) :
  import_csv_call students csv_path (CheckRaises e) duplicate_policy validate_marks
    = (Raise e, students)
  /\ (forall out students',
        import_csv_call students csv_path (CheckRaises e) duplicate_policy
          validate_marks <> (Ok out, students'))
  /\ import_csv_call students csv_path (Checked file) duplicate_policy validate_marks
     = import_csv students csv_path file duplicate_policy validate_marks.
Proof.
  split; [reflexivity|]. split; [|reflexivity].
  intros out students' H. discriminate H.
Qed.

End Counters.

(* ------------------------------------------------------------------ *)
(** ** Lookup, in-place mutation and fresh roll numbers *)

Section StoreFacts.
Context {F : PyFloat}.

Lemma get_student_by_roll_split students r s :
  get_student_by_roll students r = Some s ->
  roll_no s = r
  /\ exists l1 l2,
       students = l1 ++ s :: l2
       /\ (forall x, In x l1 -> roll_no x <> r)
       /\ forall f, mutate_first r f students = l1 ++ f s :: l2.
Proof.
  unfold get_student_by_roll.
  induction students as [|x l IH]; simpl; [discriminate|].
  destruct (Z.eqb (roll_no x) r) eqn:E.
  - intros H. injection H as ->. apply Z.eqb_eq in E. split; [exact E|].
    exists [], l. repeat split; simpl; tauto.
  - intros H. destruct (IH H) as (Hr & l1 & l2 & -> & Hn & Hm).
    split; [exact Hr|]. exists (x :: l1), l2. repeat split.
    + intros y [<-|Hy]; [now apply Z.eqb_neq|now apply Hn].
    + intros f. simpl. now rewrite Hm.
Qed.

Lemma get_student_by_roll_none students r :
  get_student_by_roll students r = None <-> ~ In r (rolls students).
Proof.
  unfold get_student_by_roll, rolls.
  induction students as [|x l IH]; simpl; [tauto|].
  destruct (Z.eqb (roll_no x) r) eqn:E.
  - apply Z.eqb_eq in E. split; [discriminate|tauto].
  - apply Z.eqb_neq in E. rewrite IH. tauto.
Qed.

Lemma get_student_by_roll_app students extra r s :
  get_student_by_roll students r = Some s ->
  get_student_by_roll (students ++ extra) r = Some s.
Proof.
  unfold get_student_by_roll.
  induction students as [|x l IH]; simpl; [discriminate|].
  destruct (Z.eqb (roll_no x) r); auto.
Qed.

Lemma get_student_by_roll_first l1 s l2 :
  (forall x, In x l1 -> roll_no x <> roll_no s) ->
  get_student_by_roll (l1 ++ s :: l2) (roll_no s) = Some s.
Proof.
  unfold get_student_by_roll. intros Hn.
  induction l1 as [|x l IH]; simpl.
  - now rewrite Z.eqb_refl.
  - destruct (Z.eqb (roll_no x) (roll_no s)) eqn:E.
    + apply Z.eqb_eq in E. exfalso. apply (Hn x); simpl; auto.
    + apply IH. intros y Hy. apply Hn. simpl; auto.
Qed.

Lemma fold_left_max_bounds (l : list Z) (a : Z) :
  (a <= fold_left Z.max l a)%Z
  /\ (forall x, In x l -> (x <= fold_left Z.max l a)%Z)
  /\ In (fold_left Z.max l a) (a :: l).
Proof.
  revert a. induction l as [|y l IH]; intros a; simpl.
  - repeat split; [lia|tauto|auto].
  - destruct (IH (Z.max a y)) as (H1 & H2 & H3). repeat split.
    + lia.
    + intros x [<-|Hx]; [lia|auto].
    + destruct H3 as [H3|H3]; [|auto].
      rewrite <- H3. destruct (Z.max_spec a y) as [[_ ->]|[_ ->]]; auto.
Qed.

(** On a non-empty store [next_free_roll] is one more than a roll number
    of the store that no other exceeds. *)
Lemma next_free_roll_is_max_plus_one (s : Student) (rest : list Student) :
  exists m,
    In m (rolls (s :: rest))
    /\ (forall k, In k (rolls (s :: rest)) -> (k <= m)%Z)
    /\ next_free_roll (s :: rest) = (m + 1)%Z.
Proof.
  exists (fold_left Z.max (map roll_no rest) (roll_no s)).
  destruct (fold_left_max_bounds (map roll_no rest) (roll_no s)) as (H1 & H2 & H3).
  unfold rolls. simpl. repeat split.
  - exact H3.
  - intros k [<-|Hk]; auto.
Qed.

Lemma next_free_roll_above students x :
  In x students -> (roll_no x < next_free_roll students)%Z.
Proof.
  destruct students as [|s rest]; [intros []|]. intros Hx.
  destruct (next_free_roll_is_max_plus_one s rest) as (m & _ & Hle & ->).
  assert (roll_no x <= m)%Z; [|lia].
  apply Hle. unfold rolls. now apply in_map.
Qed.

Lemma rolls_mutate_first r f students :
  (forall s, roll_no (f s) = roll_no s) ->
  rolls (mutate_first r f students) = rolls students.
Proof.
  intros Hf. unfold rolls.
  induction students as [|x l IH]; simpl; [reflexivity|].
  destruct (Z.eqb (roll_no x) r); simpl; [now rewrite Hf|now rewrite IH].
Qed.

(** C8: [next_free_roll] is 1 on the empty store and one more than the
    largest roll number otherwise, computed from the store it is given:
    after adding rolls 1 and 3 to an empty store it is 4, and after then
    deleting roll 3 it is 2. *)
Theorem next_free_roll_spec (s : Student) (rest : list Student)
  (n1 c1 n3 c3 : string) (m1 m3 : float) :
  next_free_roll [] = 1%Z
  /\ (exists m,
        In m (rolls (s :: rest))
        /\ (forall k, In k (rolls (s :: rest)) -> (k <= m)%Z)
        /\ next_free_roll (s :: rest) = (m + 1)%Z)
  /\ (let store13 :=
        snd (add_student (snd (add_student [] (mkStudent 1 n1 c1 m1)))
               (mkStudent 3 n3 c3 m3)) in
      next_free_roll store13 = 4%Z
      /\ next_free_roll (snd (delete_student store13 3)) = 2%Z).
Proof.
  split; [reflexivity|]. split; [apply next_free_roll_is_max_plus_one|].
  split; reflexivity.
Qed.

(** C6: a valid row whose roll number exists, under "reassign", leaves
    every record of the store as it was (the original included), appends
    exactly one record with the row's name, class and marks, and gives it
    a roll number above every roll number present before the row; a
    second such row gets a roll number above the first one's. *)
Theorem reassign_appends_one_record_with_fresh_roll
  (validate_marks : bool) (i : nat) (row : row_dict) (st : istate)
  (p : parsed_row) (s : Student) :
  validate_row validate_marks row = Ok p ->
  get_student_by_roll (self_students st) (p_roll_no p) = Some s ->
  exists st',
    import_row "reassign" validate_marks i row st = (Ok tt, st')
    /\ self_students st' =
         self_students st ++
           [mkStudent (next_free_roll (self_students st))
              (p_name p) (p_class_name p) (p_marks p)]
    /\ (forall x, In x (self_students st) ->
          (roll_no x < next_free_roll (self_students st))%Z)
    /\ get_student_by_roll (self_students st') (p_roll_no p) = Some s
    /\ reassigned (summary st') = S (reassigned (summary st))
    /\ (forall i2 row2 p2 s2,
          validate_row validate_marks row2 = Ok p2 ->
          get_student_by_roll (self_students st') (p_roll_no p2) = Some s2 ->
          exists st'',
            import_row "reassign" validate_marks i2 row2 st' = (Ok tt, st'')
            /\ self_students st'' =
                 self_students st' ++
                   [mkStudent (next_free_roll (self_students st'))
                      (p_name p2) (p_class_name p2) (p_marks p2)]
            /\ (next_free_roll (self_students st)
                < next_free_roll (self_students st'))%Z).
Proof.
  intros Hv Hg. eexists. split; [eapply import_row_reassign; eassumption|].
  cbn [self_students summary]. split; [reflexivity|].
  split; [intros x; apply next_free_roll_above|].
  split; [now apply get_student_by_roll_app|].
  split; [reflexivity|].
  intros i2 row2 p2 s2 Hv2 Hg2.
  eexists. split; [eapply import_row_reassign; eassumption|].
  cbn [self_students]. split; [reflexivity|].
  match goal with
  | |- (_ < next_free_roll (_ ++ [?x]))%Z =>
      change (next_free_roll (self_students st)) with (roll_no x) at 1;
      apply next_free_roll_above
  end.
  apply in_or_app. right. simpl. auto.
Qed.

(** C7: a valid row whose roll number exists, under "overwrite", changes
    the record found for that roll number and nothing else: it keeps its
    roll number and takes the row's name, class and marks, the roll
    numbers of the store stay as they were, and [overwritten] goes up by
    one; under "skip" the store is left as it was and
    [skipped_duplicates] goes up by one. *)
Theorem overwrite_replaces_fields_and_skip_keeps_record
  (validate_marks : bool) (i : nat) (row : row_dict) (st : istate)
  (p : parsed_row) (s : Student) :
  validate_row validate_marks row = Ok p ->
  get_student_by_roll (self_students st) (p_roll_no p) = Some s ->
  (exists st',
      import_row "overwrite" validate_marks i row st = (Ok tt, st')
      /\ get_student_by_roll (self_students st') (p_roll_no p)
         = Some (mkStudent (p_roll_no p) (p_name p) (p_class_name p) (p_marks p))
      /\ rolls (self_students st') = rolls (self_students st)
      /\ (exists l1 l2,
            self_students st = l1 ++ s :: l2
            /\ self_students st' =
                 l1 ++ mkStudent (roll_no s) (p_name p) (p_class_name p) (p_marks p)
                         :: l2)
      /\ summary st' = bump_overwritten (bump_read_rows (summary st))
      /\ overwritten (summary st') = S (overwritten (summary st)))
  /\ (exists st',
        import_row "skip" validate_marks i row st = (Ok tt, st')
        /\ self_students st' = self_students st
        /\ get_student_by_roll (self_students st') (p_roll_no p) = Some s
        /\ skipped_duplicates (summary st') = S (skipped_duplicates (summary st))).
Proof.
  intros Hv Hg.
  destruct (get_student_by_roll_split _ _ _ Hg) as (Hr & l1 & l2 & Hl & Hn & Hm).
  split.
  - eexists. split; [eapply import_row_overwrite; eassumption|].
    cbn [self_students summary]. rewrite Hm. unfold overwrite_fields.
    split.
    { rewrite Hr.
      apply (get_student_by_roll_first l1
               (mkStudent (p_roll_no p) (p_name p) (p_class_name p) (p_marks p)) l2).
      exact Hn. }
    split.
    { rewrite Hl. unfold rolls. rewrite !map_app. reflexivity. }
    split; [exists l1, l2; split; [exact Hl|reflexivity]|].
    split; reflexivity.
  - eexists. split; [eapply import_row_skip; eassumption|].
    cbn [self_students summary]. repeat split. exact Hg.
Qed.

End StoreFacts.

(* ------------------------------------------------------------------ *)
(** ** Missing file, header check, unknown policy *)

Section Preconditions.
Context {F : PyFloat}.

Lemma import_csv_header_rejected students path policy validate names rest :
  header_rejected names = true ->
  import_csv students path (Exists (Ok (Line names :: rest))) policy validate
    = (Ok header_failure, students).
Proof.
  intros H. unfold import_csv, try_except, import_try, import_opened, bind, lift.
  cbn [reader_fieldnames fst snd]. rewrite H. reflexivity.
Qed.



(** C1, as the code has it: a valid row whose roll number exists, under a
    policy that is none of "skip", "overwrite", "reassign", is counted as
    an invalid row with the message "Line i: Unknown duplicate_policy
    '...'", the store stays as the earlier rows left it, and the loop
    goes on with the rows that follow. *)
Theorem unknown_policy_marks_row_invalid_and_continues
  (duplicate_policy : string) (validate_marks : bool) (names : list string)
  (i : nat) (c : string) (cs : list string) (rest : list reader_item)
  (st : istate) (p : parsed_row) (s : Student) :
  unknown_policy duplicate_policy ->
  validate_row validate_marks (zip_row names (c :: cs)) = Ok p ->
  get_student_by_roll (self_students st) (p_roll_no p) = Some s ->
  import_loop duplicate_policy validate_marks names i (Line (c :: cs) :: rest) st
  = import_loop duplicate_policy validate_marks names (S i) rest
      (mkState (self_students st)
         (append_error
            ("Line " ++ str_of_nat i ++ ": Unknown duplicate_policy '"
               ++ duplicate_policy ++ "'")
            (bump_invalid_rows (bump_read_rows (summary st))))).
Proof.
  intros Hu Hv Hg. apply import_loop_step.
  rewrite (import_row_unknown_policy _ _ _ _ _ _ _ Hu Hv Hg). reflexivity.
Qed.

End Preconditions.

(* ------------------------------------------------------------------ *)
(** ** What the operations preserve *)

Section Invariants.
Context {F : PyFloat}.

Lemma NoDup_snoc (l : list Z) (x : Z) :
  NoDup l -> ~ In x l -> NoDup (l ++ [x]).
Proof.
  intros Hl Hx. apply NoDup_app.
  - exact Hl.
  - constructor; [intros []|constructor].
  - intros a Ha [<-|[]]. contradiction.
Qed.

Lemma rolls_snoc students s : rolls (students ++ [s]) = rolls students ++ [roll_no s].
Proof. unfold rolls. now rewrite map_app. Qed.

Lemma next_free_roll_not_in students :
  ~ In (next_free_roll students) (rolls students).
Proof.
  unfold rolls. intros H. apply in_map_iff in H as (x & Hx & Hin).
  pose proof (next_free_roll_above students x Hin). lia.
Qed.

Lemma remove_first_incl r students x :
  In x (remove_first r students) -> In x students.
Proof.
  induction students as [|y l IH]; simpl; [tauto|].
  destruct (Z.eqb (roll_no y) r); simpl; tauto.
Qed.

Lemma remove_first_NoDup r students :
  NoDup (rolls students) -> NoDup (rolls (remove_first r students)).
Proof.
  unfold rolls. induction students as [|y l IH]; simpl; [auto|].
  intros H. inversion H as [|? ? Hn Hl]; subst.
  destruct (Z.eqb (roll_no y) r); simpl; [exact Hl|].
  constructor; [|auto].
  intros Hin. apply Hn. apply in_map_iff in Hin as (x & Hx & Hin).
  apply in_map_iff. exists x. split; [exact Hx|].
  eapply remove_first_incl; eassumption.
Qed.

Lemma fold_setattr_keeps_roll kwargs s :
  Forall kw_keeps_roll kwargs ->
  roll_no (fold_left setattr_kw kwargs s) = roll_no s.
Proof.
  intros H. revert s. induction H as [|kw l Hkw _ IH]; intros s; simpl.
  - reflexivity.
  - rewrite IH. destruct kw as [[v|]|[v|]|[v|]|[d|]]; simpl in *;
      reflexivity || contradiction.
Qed.

Lemma fold_setattr_keeps_named kwargs s :
  Forall kw_keeps_names kwargs -> named s ->
  named (fold_left setattr_kw kwargs s).
Proof.
  intros H. revert s. induction H as [|kw l Hkw _ IH]; intros s Hs; simpl.
  - exact Hs.
  - apply IH. destruct Hs as [Hn Hc].
    destruct kw as [[v|]|[v|]|[v|]|[d|]]; simpl in *;
      try contradiction; split; assumption.
Qed.

Lemma mutate_first_Forall (P : Student -> Prop) r f students :
  (forall s, P s -> P (f s)) -> Forall P students ->
  Forall P (mutate_first r f students).
Proof.
  intros Hf H. induction H as [|x l Hx Hl IH]; simpl; [constructor|].
  destruct (Z.eqb (roll_no x) r); constructor; auto.
Qed.

Lemma remove_first_Forall (P : Student -> Prop) r students :
  Forall P students -> Forall P (remove_first r students).
Proof.
  intros H. induction H as [|x l Hx Hl IH]; simpl; [constructor|].
  destruct (Z.eqb (roll_no x) r); [assumption|constructor; assumption].
Qed.

(** What passes validation has a non-empty name and class. *)
Lemma validate_row_named validate row p :
  validate_row validate row = Ok p -> p_name p <> "" /\ p_class_name p <> "".
Proof.
  unfold validate_row, and_then.
  destruct (strip_cell (dict_get_default row "roll_no" "")); [|discriminate].
  destruct (strip_cell (dict_get_default row "marks" "")); [|discriminate].
  destruct (negb (isdigit a)); [discriminate|].
  destruct (py_int a); [|discriminate].
  destruct (py_float a0); [|discriminate].
  destruct (validate && _); [discriminate|].
  destruct (is_empty (strip (get_or_empty row "name"))) eqn:En; [discriminate|].
  destruct (is_empty (strip (get_or_empty row "class_name"))) eqn:Ec; [discriminate|].
  intros H. injection H as <-. simpl.
  split; intros E; [rewrite E in En|rewrite E in Ec]; discriminate.
Qed.

Lemma import_row_unique_rolls policy validate i row st st' :
  import_row policy validate i row st = (Ok tt, st') ->
  NoDup (rolls (self_students st)) -> NoDup (rolls (self_students st')).
Proof.
  intros H Hb.
  destruct (import_row_cases policy validate i row st) as (st1 & H1 & Hc).
  rewrite H in H1. injection H1 as <-.
  destruct Hc as [(e & ->)|[(p & _ & Hg & ->)|(p & s & _ & _ & Hc)]];
    [| |destruct Hc as [(_ & ->)|[(_ & ->)|(_ & ->)]]]; cbn [self_students].
  - exact Hb.
  - rewrite rolls_snoc. apply NoDup_snoc; [exact Hb|].
    now apply get_student_by_roll_none.
  - exact Hb.
  - rewrite rolls_mutate_first; [exact Hb|reflexivity].
  - rewrite rolls_snoc. apply NoDup_snoc; [exact Hb|].
    apply next_free_roll_not_in.
Qed.

Lemma import_row_named policy validate i row st st' :
  import_row policy validate i row st = (Ok tt, st') ->
  Forall named (self_students st) -> Forall named (self_students st').
Proof.
  intros H Hb.
  destruct (import_row_cases policy validate i row st) as (st1 & H1 & Hc).
  rewrite H in H1. injection H1 as <-.
  destruct Hc as [(e & ->)|[(p & Hv & _ & ->)|(p & s & Hv & _ & Hc)]];
    [| |destruct Hc as [(_ & ->)|[(_ & ->)|(_ & ->)]]]; cbn [self_students];
    try exact Hb; pose proof (validate_row_named _ _ _ Hv) as Hp.
  - apply Forall_app. split; [exact Hb|]. constructor; [exact Hp|constructor].
  - apply mutate_first_Forall; [|exact Hb]. intros x _. exact Hp.
  - apply Forall_app. split; [exact Hb|]. constructor; [exact Hp|constructor].
Qed.

(** The store [import_csv] leaves satisfies what every row preserves. *)
Lemma import_csv_store_invariant (P : list Student -> Prop)
  students path file policy validate :
  (forall i row st st',
      import_row policy validate i row st = (Ok tt, st') ->
      P (self_students st) -> P (self_students st')) ->
  P students ->
  P (snd (import_csv students path file policy validate)).
Proof.
  intros Hrow H0. destruct file as [|opened]; [exact H0|].
  destruct (import_csv_invariant (fun st => P (self_students st))
              students path opened policy validate Hrow) as (st & Heq & HP).
  - intros st msg H. exact H.
  - exact H0.
  - rewrite Heq. exact HP.
Qed.

(** Roll numbers stay pairwise distinct under [add_student],
    [delete_student] and [import_csv]; and [update_student] with name,
    class and marks keywords (no [__dict__] assigned) leaves every roll
    number as it was. *)
Theorem unique_rolls_preserved_without_roll_update (students : list Student) :
  NoDup (rolls students) ->
  (forall s, NoDup (rolls (snd (add_student students s))))
  /\ (forall r, NoDup (rolls (snd (delete_student students r))))
  /\ (forall path file policy validate,
        NoDup (rolls (snd (import_csv students path file policy validate))))
  /\ (forall r kwargs, Forall kw_keeps_roll kwargs ->
        rolls (snd (update_student students r kwargs)) = rolls students).
Proof.
  intros Hu. repeat split.
  - intros s. unfold add_student.
    destruct (get_student_by_roll students (roll_no s)) eqn:E; simpl; [exact Hu|].
    rewrite rolls_snoc. apply NoDup_snoc; [exact Hu|].
    now apply get_student_by_roll_none.
  - intros r. unfold delete_student.
    destruct (get_student_by_roll students r); simpl; [|exact Hu].
    now apply remove_first_NoDup.
  - intros path file policy validate.
    apply (import_csv_store_invariant (fun l => NoDup (rolls l))); [|exact Hu].
    intros i row st st'. apply import_row_unique_rolls.
  - intros r kwargs Hk. unfold update_student.
    destruct (get_student_by_roll students r); simpl; [|reflexivity].
    apply rolls_mutate_first. intros x. now apply fold_setattr_keeps_roll.
Qed.

(** C10, as the code has it: names and classes stay non-empty under
    [import_csv] and [delete_student], under [add_student] of a record
    whose name and class are non-empty, and under [update_student] with
    name, class and marks keywords whose supplied name and class are
    non-empty (no [__dict__] assigned). *)
Theorem nonempty_names_preserved_by_import_and_checked_callers
  (students : list Student) :
  Forall named students ->
  (forall path file policy validate,
      Forall named (snd (import_csv students path file policy validate)))
  /\ (forall r, Forall named (snd (delete_student students r)))
  /\ (forall s, named s -> Forall named (snd (add_student students s)))
  /\ (forall r kwargs, Forall kw_keeps_names kwargs ->
        Forall named (snd (update_student students r kwargs))).
Proof.
  intros Hn. repeat split.
  - intros path file policy validate.
    apply (import_csv_store_invariant (Forall named)); [|exact Hn].
    intros i row st st'. apply import_row_named.
  - intros r. unfold delete_student.
    destruct (get_student_by_roll students r); simpl; [|exact Hn].
    now apply remove_first_Forall.
  - intros s Hs. unfold add_student.
    destruct (get_student_by_roll students (roll_no s)); simpl; [exact Hn|].
    apply Forall_app. split; [exact Hn|]. constructor; [exact Hs|constructor].
  - intros r kwargs Hk. unfold update_student.
    destruct (get_student_by_roll students r); simpl; [|exact Hn].
    apply mutate_first_Forall; [|exact Hn].
    intros x. now apply fold_setattr_keeps_named.
Qed.

End Invariants.

(* ------------------------------------------------------------------ *)
(** ** Export followed by import *)

Section RoundTrip.
Context {F : PyFloat}.

Lemma is_decimal_not_space c : is_decimal c = true -> is_space c = false.
Proof.
  unfold is_decimal, is_space. cbv zeta.
  intros H. apply andb_true_iff in H as [H1 H2].
  apply Nat.leb_le in H1, H2.
  repeat (apply orb_false_iff; split).
  - apply andb_false_iff. right. apply Nat.leb_gt. lia.
  - apply andb_false_iff. right. apply Nat.leb_gt. lia.
  - apply Nat.eqb_neq. lia.
  - apply Nat.eqb_neq. lia.
Qed.

Lemma all_decimal_all_digits s : all_decimal s = true -> all_digits s = true.
Proof.
  induction s as [|c s IH]; simpl; [reflexivity|].
  intros H. apply andb_true_iff in H as [Hc Hs].
  unfold is_digit. rewrite Hc, (IH Hs). reflexivity.
Qed.

Lemma rstrip_decimal s : all_decimal s = true -> rstrip s = s.
Proof.
  induction s as [|c s IH]; simpl; [reflexivity|].
  intros H. apply andb_true_iff in H as [Hc Hs].
  rewrite (IH Hs). destruct s; [|reflexivity].
  now rewrite (is_decimal_not_space c Hc).
Qed.

Lemma strip_decimal s : all_decimal s = true -> strip s = s.
Proof.
  intros H. unfold strip.
  assert (lstrip s = s) as ->; [|now apply rstrip_decimal].
  destruct s as [|c s]; simpl; [reflexivity|].
  simpl in H. apply andb_true_iff in H as [Hc _].
  now rewrite (is_decimal_not_space c Hc).
Qed.

Lemma string_of_uint_decimal d : all_decimal (NilEmpty.string_of_uint d) = true.
Proof. induction d; simpl; auto. Qed.

Lemma string_of_uint_nonempty d :
  d <> Nil -> NilEmpty.string_of_uint d <> EmptyString.
Proof. destruct d; simpl; congruence. Qed.

(** The decimal text of a roll number that is not negative. *)
Lemma str_of_Z_nonneg z :
  (0 <= z)%Z ->
  exists d, d <> Nil /\ str_of_Z z = NilEmpty.string_of_uint d /\ Z.of_uint d = z.
Proof.
  intros Hz. destruct z as [|p|p]; [| |lia].
  - exists (D0 Nil). repeat split. discriminate.
  - exists (Pos.to_uint p). split; [apply DecimalPos.Unsigned.to_uint_nonnil|].
    split.
    + unfold str_of_Z. simpl. unfold NilZero.string_of_uint.
      pose proof (DecimalPos.Unsigned.to_uint_nonnil p) as Hn.
      destruct (Pos.to_uint p); [contradiction|reflexivity..].
    + unfold Z.of_uint. now rewrite DecimalPos.Unsigned.of_to.
Qed.

Lemma str_of_Z_parses z :
  (0 <= z)%Z ->
  strip (str_of_Z z) = str_of_Z z
  /\ isdigit (str_of_Z z) = true
  /\ py_int (str_of_Z z) = Ok z.
Proof.
  intros Hz. destruct (str_of_Z_nonneg z Hz) as (d & Hd & -> & Hv).
  pose proof (string_of_uint_decimal d) as Hdec.
  pose proof (all_decimal_all_digits _ Hdec) as Hdig.
  pose proof (string_of_uint_nonempty d Hd) as Hne.
  split; [now apply strip_decimal|].
  unfold isdigit, py_int. cbv zeta. rewrite NilEmpty.usu, Hv.
  destruct (NilEmpty.string_of_uint d); [contradiction|]. auto.
Qed.

(** An exported row of such a record passes validation as itself. *)
Lemma validate_export_row validate s :
  round_trips validate s ->
  validate_row validate (zip_row export_fieldnames (export_row s))
  = Ok (mkParsed (roll_no s) (name s) (class_name s) (marks s)).
Proof.
  intros (Hz & Hn & Hne & Hc & Hce & Hf & Hr).
  destruct (str_of_Z_parses _ Hz) as (Hs & Hd & Hi).
  unfold validate_row, export_row, export_fieldnames.
  cbn [zip_row dict_get dict_get_default get_or_empty String.eqb Ascii.eqb
       Bool.eqb strip_cell and_then].
  rewrite Hs, Hd, Hi, Hf, Hn, Hc. cbn [negb and_then].
  assert (validate && negb (float_leb float_0 (marks s) && float_leb (marks s) float_100)
          = false) as ->.
  { destruct validate; [|reflexivity]. now rewrite (Hr eq_refl). }
  destruct (name s); [contradiction|].
  destruct (class_name s); [contradiction|]. reflexivity.
Qed.

(** The loop over exported records whose roll numbers are new to the
    store and distinct appends them in order, counting each as imported. *)
Lemma import_loop_exported policy validate l :
  Forall (round_trips validate) l ->
  forall i st,
    NoDup (rolls (self_students st ++ l)) ->
    exists m,
      import_loop policy validate export_fieldnames i
        (map Line (map export_row l)) st
      = (Ok tt, mkState (self_students st ++ l) m)
      /\ imported m = imported (summary st) + List.length l
      /\ read_rows m = read_rows (summary st) + List.length l
      /\ errors m = errors (summary st).
Proof.
  induction 1 as [|s l Hs Hl IH]; intros i st Hu.
  - exists (summary st). rewrite app_nil_r. simpl.
    destruct st. repeat split; simpl; lia.
  - assert (Hg : get_student_by_roll (self_students st) (roll_no s) = None).
    { apply get_student_by_roll_none. intros Hin.
      unfold rolls in Hu. rewrite map_app in Hu. simpl in Hu.
      apply NoDup_remove_2 in Hu. apply Hu. apply in_or_app. now left. }
    pose proof (validate_export_row validate s Hs) as Hv.
    pose proof (import_row_new policy validate i _ st _ Hv Hg) as Hrow.
    cbn [p_roll_no p_name p_class_name p_marks] in Hrow.
    assert (Es : mkStudent (roll_no s) (name s) (class_name s) (marks s) = s)
      by now destruct s.
    rewrite Es in Hrow.
    change (map Line (map export_row (s :: l)))
      with (Line (str_of_Z (roll_no s)
                    :: [name s; class_name s; float_repr (marks s)])
              :: map Line (map export_row l)).
    rewrite (import_loop_step _ _ _ _ _ _ _ _ _ Hrow).
    destruct (IH (S i)
                (mkState (self_students st ++ [s])
                   (bump_imported (bump_read_rows (summary st)))))
      as (m & Hm & H1 & H2 & H3).
    { cbn [self_students]. now rewrite <- app_assoc. }
    exists m. cbn [self_students summary] in *.
    rewrite <- app_assoc in Hm. split; [exact Hm|].
    simpl in *. repeat split; lia || assumption.
Qed.

Lemma insert_by_roll_perm x l : Permutation (insert_by_roll x l) (x :: l).
Proof.
  induction l as [|y l IH]; simpl; [reflexivity|].
  destruct (Z.leb (roll_no x) (roll_no y)); [reflexivity|].
  rewrite IH. apply perm_swap.
Qed.

(** [list_students] rearranges the store and nothing more. *)
Lemma list_students_perm students : Permutation (list_students students) students.
Proof.
  induction students as [|x l IH]; simpl; [reflexivity|].
  rewrite insert_by_roll_perm. now constructor.
Qed.

(** C4, as the code has it: for a store with pairwise distinct roll
    numbers whose records all survive the trip through text (see
    [round_trips]), exporting it and importing the export into an empty
    store under "skip" imports every record, and the new store is the
    old one in roll-number order, so it holds the same records. *)
Theorem export_then_import_restores_round_trip_records
  (students : list Student) (csv_path : string) (validate_marks : bool) :
  NoDup (rolls students) ->
  Forall (round_trips validate_marks) students ->
  exists out,
    export_then_import students csv_path validate_marks
      = Some (List.length students, (Ok out, list_students students))
    /\ imported out = List.length students
    /\ read_rows out = List.length students
    /\ errors out = []
    /\ (forall s, In s (list_students students) <-> In s students).
Proof.
  intros Hu Hr.
  pose proof (list_students_perm students) as Hp.
  assert (Hu' : NoDup (rolls (list_students students))).
  { unfold rolls. eapply Permutation_NoDup; [|exact Hu].
    apply Permutation_map. symmetry. exact Hp. }
  assert (Hr' : Forall (round_trips validate_marks) (list_students students)).
  { eapply Permutation_Forall; [symmetry; exact Hp|exact Hr]. }
  destruct (import_loop_exported "skip" validate_marks _ Hr' 2
              (mkState [] empty_summary) Hu') as (m & Hm & H1 & H2 & H3).
  exists m.
  split.
  { unfold export_then_import, export_csv.
    rewrite length_map, (Permutation_length Hp).
    unfold import_csv, file_of_records, try_except, import_try, import_opened,
      bind, lift.
    cbn [map reader_fieldnames fst snd].
    change (header_rejected export_fieldnames) with false. cbv iota.
    rewrite Hm. reflexivity. }
  rewrite (Permutation_length Hp) in H1, H2. simpl in H1, H2, H3.
  repeat split; try assumption.
  - apply Permutation_in. exact Hp.
  - apply Permutation_in. symmetry. exact Hp.
Qed.

End RoundTrip.

(* ------------------------------------------------------------------ *)
(** ** Add, look up, update, delete *)

Section StoreOperations.
Context {F : PyFloat}.

Lemma get_student_by_roll_snoc students s r :
  get_student_by_roll (students ++ [s]) r =
  match get_student_by_roll students r with
  | Some x => Some x
  | None => if Z.eqb (roll_no s) r then Some s else None
  end.
Proof.
  unfold get_student_by_roll.
  induction students as [|x l IH]; simpl; [reflexivity|].
  destruct (Z.eqb (roll_no x) r); [reflexivity|exact IH].
Qed.

Lemma get_student_by_roll_remove_other students r r' :
  r' <> r ->
  get_student_by_roll (remove_first r students) r' = get_student_by_roll students r'.
Proof.
  intros Hne. unfold get_student_by_roll.
  induction students as [|x l IH]; simpl; [reflexivity|].
  destruct (Z.eqb (roll_no x) r) eqn:E; simpl.
  - apply Z.eqb_eq in E.
    destruct (Z.eqb (roll_no x) r') eqn:E'; [|reflexivity].
    apply Z.eqb_eq in E'. congruence.
  - destruct (Z.eqb (roll_no x) r'); [reflexivity|exact IH].
Qed.

Lemma get_student_by_roll_remove_same students r :
  NoDup (rolls students) ->
  get_student_by_roll (remove_first r students) r = None.
Proof.
  intros Hu. apply get_student_by_roll_none. unfold rolls in *.
  induction students as [|x l IH]; simpl; [tauto|].
  inversion Hu as [|? ? Hn Hl]; subst.
  destruct (Z.eqb (roll_no x) r) eqn:E; simpl.
  - apply Z.eqb_eq in E. now subst.
  - apply Z.eqb_neq in E. intros [H|H]; [contradiction|]. now apply IH.
Qed.

Lemma remove_first_length students r s :
  get_student_by_roll students r = Some s ->
  S (List.length (remove_first r students)) = List.length students.
Proof.
  unfold get_student_by_roll.
  induction students as [|x l IH]; simpl; [discriminate|].
  destruct (Z.eqb (roll_no x) r); simpl; [reflexivity|].
  intros H. now rewrite IH.
Qed.

Lemma remove_first_snoc students s :
  get_student_by_roll students (roll_no s) = None ->
  remove_first (roll_no s) (students ++ [s]) = students.
Proof.
  unfold get_student_by_roll.
  induction students as [|x l IH]; simpl.
  - now rewrite Z.eqb_refl.
  - destruct (Z.eqb (roll_no x) (roll_no s)); [discriminate|].
    intros H. now rewrite IH.
Qed.

Lemma get_student_by_roll_mutate_other students r r' f :
  r' <> r -> (forall s, roll_no (f s) = roll_no s) ->
  get_student_by_roll (mutate_first r f students) r'
  = get_student_by_roll students r'.
Proof.
  intros Hne Hf. unfold get_student_by_roll.
  induction students as [|x l IH]; simpl; [reflexivity|].
  destruct (Z.eqb (roll_no x) r) eqn:E; simpl.
  - rewrite Hf. apply Z.eqb_eq in E.
    destruct (Z.eqb (roll_no x) r') eqn:E'; [|reflexivity].
    apply Z.eqb_eq in E'. congruence.
  - destruct (Z.eqb (roll_no x) r'); [reflexivity|exact IH].
Qed.

Lemma mutate_first_length r f students :
  List.length (mutate_first r f students) = List.length students.
Proof.
  induction students as [|x l IH]; simpl; [reflexivity|].
  destruct (Z.eqb (roll_no x) r); simpl; congruence.
Qed.

(** [add_student] succeeds exactly when the roll number is new.  Then the
    record is found under its roll number and every other lookup answers
    as before; otherwise the store is left as it was. *)
Theorem add_student_then_lookup (students : list Student) (s : Student) :
  (fst (add_student students s) = true
   <-> get_student_by_roll students (roll_no s) = None)
  /\ (fst (add_student students s) = true ->
      get_student_by_roll (snd (add_student students s)) (roll_no s) = Some s
      /\ List.length (snd (add_student students s)) = S (List.length students))
  /\ (fst (add_student students s) = false ->
      snd (add_student students s) = students)
  /\ (forall r, r <> roll_no s ->
        get_student_by_roll (snd (add_student students s)) r
        = get_student_by_roll students r).
Proof.
  unfold add_student.
  destruct (get_student_by_roll students (roll_no s)) as [old|] eqn:E; simpl.
  - repeat split; try discriminate; auto.
  - repeat split; try discriminate; auto.
    + rewrite get_student_by_roll_snoc, E, Z.eqb_refl. reflexivity.
    + rewrite length_app. simpl. lia.
    + intros r Hr. rewrite get_student_by_roll_snoc.
      destruct (get_student_by_roll students r); [reflexivity|].
      destruct (Z.eqb (roll_no s) r) eqn:E'; [|reflexivity].
      apply Z.eqb_eq in E'. congruence.
Qed.

(** On a store with distinct roll numbers, [delete_student] of a roll
    number that is present removes one record: the roll number is no
    longer found, every other lookup answers as before.  A roll number
    that is absent makes it return [False] and change nothing. *)
Theorem delete_student_removes_the_record (students : list Student) (r : Z) :
  NoDup (rolls students) ->
  (fst (delete_student students r) = false
   <-> get_student_by_roll students r = None)
  /\ (fst (delete_student students r) = false ->
      snd (delete_student students r) = students)
  /\ (fst (delete_student students r) = true ->
      get_student_by_roll (snd (delete_student students r)) r = None
      /\ S (List.length (snd (delete_student students r))) = List.length students)
  /\ (forall r', r' <> r ->
        get_student_by_roll (snd (delete_student students r)) r'
        = get_student_by_roll students r').
Proof.
  intros Hu. unfold delete_student.
  destruct (get_student_by_roll students r) as [s|] eqn:E; simpl.
  - repeat split; try discriminate.
    + now apply get_student_by_roll_remove_same.
    + eapply remove_first_length; eassumption.
    + intros r' Hr. now apply get_student_by_roll_remove_other.
  - repeat split; try discriminate; auto.
Qed.

(** Deleting a record right after adding it gives back the store as it
    was before the add, record for record. *)
Theorem add_then_delete_restores_store (students : list Student) (s : Student) :
  get_student_by_roll students (roll_no s) = None ->
  delete_student (snd (add_student students s)) (roll_no s) = (true, students).
Proof.
  intros Hg. unfold add_student. rewrite Hg. simpl.
  unfold delete_student.
  rewrite get_student_by_roll_snoc, Hg, Z.eqb_refl.
  now rewrite remove_first_snoc.
Qed.

(** [update_student] with name, class and marks keywords (the shape the
    menu uses): a roll number that is absent gives [False] and no change;
    otherwise the record found keeps its roll number, takes each value
    that is not [None] and keeps the field where it is [None]; all other
    lookups and the number of records stay as they were. *)
Theorem update_student_sets_supplied_fields
  (students : list Student) (r : Z)
  (n c : option string) (m : option float) :
  let kwargs := [kw_name n; kw_class_name c; kw_marks m] in
  (get_student_by_roll students r = None ->
   update_student students r kwargs = (false, students))
  /\ (forall s, get_student_by_roll students r = Some s ->
        fst (update_student students r kwargs) = true
        /\ get_student_by_roll (snd (update_student students r kwargs)) r
           = Some (mkStudent r
                     (match n with Some v => v | None => name s end)
                     (match c with Some v => v | None => class_name s end)
                     (match m with Some v => v | None => marks s end)))
  /\ (forall r', r' <> r ->
        get_student_by_roll (snd (update_student students r kwargs)) r'
        = get_student_by_roll students r')
  /\ List.length (snd (update_student students r kwargs)) = List.length students.
Proof.
  cbv zeta. unfold update_student.
  destruct (get_student_by_roll students r) as [s0|] eqn:E; cbn [fst snd].
  - split; [discriminate|]. split; [|split].
    + intros s Hs. injection Hs as <-. split; [reflexivity|].
      destruct (get_student_by_roll_split _ _ _ E) as (Hr & l1 & l2 & Hl & Hn & Hm).
      rewrite Hm.
      match goal with
      | |- get_student_by_roll (_ ++ ?x :: _) _ = Some ?y =>
          assert (Ex : x = y)
            by (rewrite <- Hr; destruct s0, n, c, m; reflexivity)
      end.
      rewrite Ex.
      apply (get_student_by_roll_first l1
               (mkStudent r
                  (match n with Some v => v | None => name s0 end)
                  (match c with Some v => v | None => class_name s0 end)
                  (match m with Some v => v | None => marks s0 end)) l2).
      exact Hn.
    + intros r' Hr. apply get_student_by_roll_mutate_other; [exact Hr|].
      intros s. destruct n, c, m; reflexivity.
    + apply mutate_first_length.
  - split; [reflexivity|]. split; [discriminate|]. split; reflexivity.
Qed.

End StoreOperations.

(* ------------------------------------------------------------------ *)
(** ** Changing a roll number through the [__dict__] keyword *)

Section Rekey.
Context {F : PyFloat}.

Lemma NoDup_middle_iff (l1 l2 : list Z) (k : Z) :
  NoDup (l1 ++ k :: l2) <-> NoDup (l1 ++ l2) /\ ~ In k (l1 ++ l2).
Proof.
  split.
  - intros H. split; [eapply NoDup_remove_1|eapply NoDup_remove_2]; eassumption.
  - intros [H1 H2]. eapply Permutation_NoDup; [apply Permutation_middle|].
    now constructor.
Qed.

(** On a store with distinct roll numbers, [update_student(r, __dict__=d)]
    for a record that exists and a dictionary [d] whose roll number is
    not [r] keeps the roll numbers distinct exactly when no record holds
    the roll number of [d]; in that case the record is found under that
    roll number with the fields of [d], and nothing is found under [r]
    any more. *)
Theorem update_student_dict_roll_unique_iff_fresh
  (students : list Student) (r : Z) (s d : Student) :
  NoDup (rolls students) ->
  get_student_by_roll students r = Some s ->
  roll_no d <> r ->
  let students' := snd (update_student students r [kw_dict (Some d)]) in
  (NoDup (rolls students') <-> ~ In (roll_no d) (rolls students))
  /\ (~ In (roll_no d) (rolls students) ->
      get_student_by_roll students' (roll_no d) = Some d
      /\ get_student_by_roll students' r = None).
Proof.
  intros Hu Hg Hk. cbv zeta. unfold update_student. rewrite Hg. cbn [snd].
  destruct (get_student_by_roll_split _ _ _ Hg) as (Hr & l1 & l2 & Hl & Hn & Hm).
  rewrite Hm. cbn [fold_left setattr_kw].
  assert (Er : rolls students = rolls l1 ++ r :: rolls l2).
  { rewrite Hl. unfold rolls. rewrite map_app. simpl. now rewrite Hr. }
  assert (Er' : rolls (l1 ++ d :: l2) = rolls l1 ++ roll_no d :: rolls l2).
  { unfold rolls. now rewrite map_app. }
  rewrite Er in Hu. apply NoDup_middle_iff in Hu as [Hu1 Hu2].
  assert (Hin : In (roll_no d) (rolls students)
                <-> In (roll_no d) (rolls l1 ++ rolls l2)).
  { rewrite Er, !in_app_iff. simpl. intuition congruence. }
  split.
  - rewrite Er', NoDup_middle_iff, Hin. tauto.
  - intros Hfresh. split.
    + apply (get_student_by_roll_first l1 d l2).
      intros x Hx E. apply Hfresh, Hin, in_or_app. left.
      rewrite <- E. unfold rolls. now apply in_map.
    + apply get_student_by_roll_none. rewrite Er', in_app_iff. simpl.
      rewrite in_app_iff in Hu2. intuition congruence.
Qed.

End Rekey.

(* ------------------------------------------------------------------ *)
(** ** The sorted listing and the export *)

Section Listing.
Context {F : PyFloat}.

Lemma insert_by_roll_HdRel y x l :
  HdRel roll_le y l -> roll_le y x -> HdRel roll_le y (insert_by_roll x l).
Proof.
  intros Hl Hx. destruct l as [|z l]; simpl; [now constructor|].
  destruct (Z.leb (roll_no x) (roll_no z)); constructor; [exact Hx|].
  now inversion Hl.
Qed.

Lemma insert_by_roll_Sorted x l :
  Sorted roll_le l -> Sorted roll_le (insert_by_roll x l).
Proof.
  induction 1 as [|y l Hs IH Hh]; simpl; [repeat constructor|].
  destruct (Z.leb (roll_no x) (roll_no y)) eqn:E.
  - apply Z.leb_le in E. repeat constructor; assumption.
  - apply Z.leb_gt in E. constructor; [exact IH|].
    apply insert_by_roll_HdRel; [exact Hh|]. unfold roll_le. lia.
Qed.

Lemma list_students_Sorted students : Sorted roll_le (list_students students).
Proof.
  induction students as [|x l IH]; simpl; [constructor|].
  now apply insert_by_roll_Sorted.
Qed.

Lemma insert_by_roll_filter r x l :
  filter (fun s => Z.eqb (roll_no s) r) (insert_by_roll x l)
  = filter (fun s => Z.eqb (roll_no s) r) (x :: l).
Proof.
  induction l as [|y l IH]; [reflexivity|].
  cbn [insert_by_roll].
  destruct (Z.leb (roll_no x) (roll_no y)) eqn:E; [reflexivity|].
  apply Z.leb_gt in E. cbn [filter] in *. rewrite IH.
  destruct (Z.eqb (roll_no x) r) eqn:Ex, (Z.eqb (roll_no y) r) eqn:Ey;
    try reflexivity.
  apply Z.eqb_eq in Ex, Ey. lia.
Qed.

Lemma insert_by_roll_comm x y l :
  roll_no x <> roll_no y ->
  insert_by_roll x (insert_by_roll y l) = insert_by_roll y (insert_by_roll x l).
Proof.
  intros Hne. induction l as [|z l IH]; simpl.
  - destruct (Z.leb (roll_no x) (roll_no y)) eqn:E1,
             (Z.leb (roll_no y) (roll_no x)) eqn:E2; try reflexivity;
      [apply Z.leb_le in E1, E2|apply Z.leb_gt in E1, E2]; lia.
  - destruct (Z.leb (roll_no y) (roll_no z)) eqn:Eyz,
             (Z.leb (roll_no x) (roll_no z)) eqn:Exz; simpl;
      rewrite ?Eyz, ?Exz;
      destruct (Z.leb (roll_no x) (roll_no y)) eqn:Exy,
               (Z.leb (roll_no y) (roll_no x)) eqn:Eyx;
      try reflexivity; try (now rewrite IH);
      repeat match goal with
             | H : Z.leb _ _ = true |- _ => apply Z.leb_le in H
             | H : Z.leb _ _ = false |- _ => apply Z.leb_gt in H
             end; lia.
Qed.

Lemma list_students_perm_eq l l' :
  Permutation l l' -> NoDup (rolls l) -> list_students l = list_students l'.
Proof.
  induction 1 as [|x l l' Hp IH|x y l|l l' l'' Hp1 IH1 Hp2 IH2]; intros Hu.
  - reflexivity.
  - simpl. rewrite IH; [reflexivity|]. now inversion Hu.
  - simpl. apply insert_by_roll_comm.
    unfold rolls in Hu. simpl in Hu. inversion Hu as [|? ? Hn _]; subst.
    intros E. apply Hn. simpl. auto.
  - rewrite IH1 by exact Hu. apply IH2.
    unfold rolls in *. eapply Permutation_NoDup; [|exact Hu].
    now apply Permutation_map.
Qed.

Lemma list_students_StronglySorted students :
  StronglySorted roll_le (list_students students).
Proof.
  apply Sorted_StronglySorted; [|apply list_students_Sorted].
  intros a b c. unfold roll_le. lia.
Qed.

(** [list_students] returns the records of the store, each once, with
    roll numbers ascending, and records with the same roll number in the
    order the store has them. *)
Theorem list_students_sorted_stable_permutation (students : list Student) :
  Permutation (list_students students) students
  /\ StronglySorted roll_le (list_students students)
  /\ (forall r,
        filter (fun s => Z.eqb (roll_no s) r) (list_students students)
        = filter (fun s => Z.eqb (roll_no s) r) students).
Proof.
  split; [apply list_students_perm|]. split.
  - apply list_students_StronglySorted.
  - intros r. induction students as [|x l IH]; [reflexivity|].
    cbn [list_students fold_right]. rewrite insert_by_roll_filter.
    cbn [filter]. fold (list_students l). now rewrite IH.
Qed.

(** [export_csv] to a destination that opens writes the header and then
    one row per record, in ascending roll-number order, and returns the
    number of records; when the destination does not open it returns 0
    and writes nothing. *)
Theorem export_csv_writes_every_record_in_roll_order (students : list Student) :
  (exists listed,
      export_csv students true
        = (List.length students,
           Some (["roll_no"; "name"; "class_name"; "marks"]
                   :: map export_row listed))
      /\ Permutation listed students
      /\ StronglySorted roll_le listed)
  /\ export_csv students false = (0, None).
Proof.
  split; [|reflexivity].
  exists (list_students students).
  pose proof (list_students_perm students) as Hp.
  unfold export_csv. rewrite length_map, (Permutation_length Hp).
  repeat split; [exact Hp|apply list_students_StronglySorted].
Qed.

(** With distinct roll numbers the export does not depend on the order
    in which the records were added. *)
Theorem export_csv_independent_of_insertion_order
  (students students' : list Student) (dest_opens : bool) :
  NoDup (rolls students) ->
  Permutation students students' ->
  export_csv students dest_opens = export_csv students' dest_opens.
Proof.
  intros Hu Hp. unfold export_csv.
  now rewrite (list_students_perm_eq _ _ Hp Hu).
Qed.

End Listing.

(* ------------------------------------------------------------------ *)
(** ** Searching by name *)

Section Search.
Context {F : PyFloat}.

Lemma prefix_app (m post : string) : String.prefix m (m ++ post) = true.
Proof.
  induction m as [|c m IH]; simpl; [now destruct post|].
  destruct (ascii_dec c c); [exact IH|contradiction].
Qed.

Lemma contains_empty (hay : string) : contains "" hay = true.
Proof. destruct hay; reflexivity. Qed.

Lemma contains_middle (pre m post : string) :
  contains m (pre ++ m ++ post) = true.
Proof.
  induction pre as [|c pre IH].
  - cbn [append]. pose proof (prefix_app m post) as H.
    destruct (m ++ post)%string; cbn [contains]; rewrite H; reflexivity.
  - cbn [append contains]. rewrite IH. apply orb_true_r.
Qed.

Lemma lower_app (a b : string) : lower (a ++ b) = (lower a ++ lower b)%string.
Proof. induction a as [|c a IH]; simpl; [reflexivity|now rewrite IH]. Qed.

Lemma lstrip_suffix (s : string) : exists pre, s = (pre ++ lstrip s)%string.
Proof.
  induction s as [|c s (pre & IH)]; simpl.
  - exists "". reflexivity.
  - destruct (is_space c).
    + exists (String c pre). simpl. now rewrite <- IH.
    + exists "". reflexivity.
Qed.

Lemma rstrip_prefix (s : string) : exists post, s = (rstrip s ++ post)%string.
Proof.
  induction s as [|c s (post & IH)]; simpl.
  - exists "". reflexivity.
  - destruct (rstrip s) as [|d r] eqn:E.
    + destruct (is_space c).
      * exists (String c s). reflexivity.
      * exists post. simpl in IH |- *. congruence.
    + exists post. simpl in IH |- *. congruence.
Qed.

(** A stripped string is a stretch of the string it came from. *)
Lemma strip_middle (s : string) :
  exists pre post, s = (pre ++ strip s ++ post)%string.
Proof.
  destruct (lstrip_suffix s) as (pre & Hpre).
  destruct (rstrip_prefix (lstrip s)) as (post & Hpost).
  exists pre, post. unfold strip. now rewrite <- Hpost.
Qed.

(** [search_by_name] returns records of the store only; a query that is
    empty or all whitespace returns the whole store, in order. *)
Theorem search_by_name_blank_query_returns_all
  (students : list Student) (name_query : string) :
  (forall s, In s (search_by_name students name_query) -> In s students)
  /\ (strip name_query = "" -> search_by_name students name_query = students).
Proof.
  split.
  - intros s Hs. unfold search_by_name in Hs. now apply filter_In in Hs.
  - intros Hb. unfold search_by_name. rewrite Hb. simpl.
    induction students as [|x l IH]; simpl; [reflexivity|].
    rewrite contains_empty. now rewrite IH.
Qed.

(** A record of the store is found by every query that, stripped and
    lower-cased, equals the lower case of a stretch of its name; in
    particular by its own name, whatever whitespace surrounds it. *)
Theorem search_by_name_finds_any_stretch_of_the_name_in_any_case
  (students : list Student) (s : Student) :
  In s students ->
  (forall name_query pre mid post,
      name s = (pre ++ mid ++ post)%string ->
      lower (strip name_query) = lower mid ->
      In s (search_by_name students name_query))
  /\ In s (search_by_name students (name s)).
Proof.
  intros Hin.
  assert (Hgen : forall name_query pre mid post,
             name s = (pre ++ mid ++ post)%string ->
             lower (strip name_query) = lower mid ->
             In s (search_by_name students name_query)).
  { intros q pre mid post Hn Hq. unfold search_by_name.
    apply filter_In. split; [exact Hin|].
    rewrite Hq, Hn, !lower_app. apply contains_middle. }
  split; [exact Hgen|].
  destruct (strip_middle (name s)) as (pre & post & Hn).
  apply (Hgen (name s) pre (strip (name s)) post Hn eq_refl).
Qed.

End Search.

(* ------------------------------------------------------------------ *)
(** ** What an import does to the store and how it ends *)

Section ImportRuns.
Context {F : PyFloat}.

(** [import_csv] on a file whose header passes the test, as the loop
    started on the rest of the file and the outer handler after it. *)
Lemma import_csv_as_loop students path policy validate names rest :
  header_rejected names = false ->
  import_csv students path (Exists (Ok (Line names :: rest))) policy validate
  = match import_loop policy validate names 2 rest (mkState students empty_summary) with
    | (Ok _, st) => (Ok (summary st), self_students st)
    | (Raise e, st) =>
        (Ok (append_error ("Failed to import CSV: " ++ str_exn e) (summary st)),
         self_students st)
    end.
Proof.
  intros H. unfold import_csv, try_except, import_try, import_opened, bind, lift.
  cbn [reader_fieldnames fst snd]. rewrite H.
  destruct (import_loop policy validate names 2 rest (mkState students empty_summary))
    as [[[]|e] st]; reflexivity.
Qed.

Lemma import_row_grows students policy validate i row st st' :
  import_row policy validate i row st = (Ok tt, st') ->
  (List.length (self_students st)
   = List.length students + imported (summary st) + reassigned (summary st)
   /\ (exists extra, rolls (self_students st) = rolls students ++ extra)
   /\ (policy <> "overwrite" -> exists added, self_students st = students ++ added)) ->
  (List.length (self_students st')
   = List.length students + imported (summary st') + reassigned (summary st')
   /\ (exists extra, rolls (self_students st') = rolls students ++ extra)
   /\ (policy <> "overwrite" -> exists added, self_students st' = students ++ added)).
Proof.
  intros H (Hl & (extra & Hx) & Ha).
  destruct (import_row_cases policy validate i row st) as (st1 & H1 & Hc).
  rewrite H in H1. injection H1 as <-.
  destruct Hc as [(e & ->)|[(p & _ & _ & ->)|(p & s & _ & _ & Hc)]];
    [| |destruct Hc as [(_ & ->)|[(-> & ->)|(_ & ->)]]];
    cbn [self_students summary].
  - repeat split; [simpl; lia|eauto|exact Ha].
  - split; [rewrite length_app; simpl; lia|]. split.
    + rewrite rolls_snoc, Hx, <- app_assoc. eauto.
    + intros Hp. destruct (Ha Hp) as (added & ->). rewrite <- app_assoc. eauto.
  - repeat split; [simpl; lia|eauto|exact Ha].
  - split; [rewrite mutate_first_length; simpl; lia|]. split.
    + rewrite rolls_mutate_first by reflexivity. eauto.
    + intros Hp. contradiction.
  - split; [rewrite length_app; simpl; lia|]. split.
    + rewrite rolls_snoc, Hx, <- app_assoc. eauto.
    + intros Hp. destruct (Ha Hp) as (added & ->). rewrite <- app_assoc. eauto.
Qed.

(** [import_csv] never removes a record and never changes a roll number:
    the roll numbers of the store afterwards start with those it had, in
    the same order; the number of records grows by [imported] plus
    [reassigned]; and unless the policy is "overwrite" the records it had
    are all still there unchanged, with the new ones after them. *)
Theorem import_csv_only_appends
  (students : list Student) (csv_path : string) (file : csv_file)
  (duplicate_policy : string) (validate_marks : bool) :
  exists out students',
    import_csv students csv_path file duplicate_policy validate_marks
      = (Ok out, students')
    /\ List.length students'
       = List.length students + imported out + reassigned out
    /\ (exists extra, rolls students' = rolls students ++ extra)
    /\ (duplicate_policy <> "overwrite" ->
        exists added, students' = students ++ added).
Proof.
  destruct file as [|opened].
  - eexists _, _. split; [reflexivity|]. simpl.
    repeat split; [lia|exists []|intros _; exists []]; now rewrite app_nil_r.
  - destruct (import_csv_invariant
                (fun st =>
                   List.length (self_students st)
                   = List.length students + imported (summary st)
                     + reassigned (summary st)
                   /\ (exists extra, rolls (self_students st) = rolls students ++ extra)
                   /\ (duplicate_policy <> "overwrite" ->
                       exists added, self_students st = students ++ added))
                students csv_path opened duplicate_policy validate_marks)
      as (st & Heq & HP).
    + intros i row st st'. apply import_row_grows.
    + intros st msg H. exact H.
    + simpl. repeat split; [lia|exists []|intros _; exists []];
        now rewrite app_nil_r.
    + exists (summary st), (self_students st). split; [exact Heq|exact HP].
Qed.

Lemma import_loop_drop_blank policy validate names lines :
  forall i st,
    import_loop policy validate names i (drop_blank lines) st
    = import_loop policy validate names i lines st.
Proof.
  induction lines as [|[[|c cs]|e] rest IH]; intros i st; simpl.
  - reflexivity.
  - apply IH.
  - unfold bind.
    destruct (import_row policy validate i (zip_row names (c :: cs)) st)
      as [[[]|e] st']; [apply IH|reflexivity].
  - reflexivity.
Qed.

(** Empty records among the data rows change nothing: the summary, with
    the line numbers in its messages, and the store are those of the
    file without them.  So the line number in a message counts data rows
    (plus the header), not lines of the file. *)
Theorem import_csv_ignores_blank_records
  (students : list Student) (csv_path : string) (header : reader_item)
  (lines : list reader_item) (duplicate_policy : string) (validate_marks : bool) :
  import_csv students csv_path (Exists (Ok (header :: drop_blank lines)))
    duplicate_policy validate_marks
  = import_csv students csv_path (Exists (Ok (header :: lines)))
      duplicate_policy validate_marks.
Proof.
  unfold import_csv, try_except, import_try, import_opened, bind, lift.
  destruct header as [names|e]; cbn [reader_fieldnames fst snd]; [|reflexivity].
  destruct (header_rejected names); [reflexivity|].
  now rewrite import_loop_drop_blank.
Qed.

Lemma import_loop_app policy validate names pre rest :
  readable pre = true ->
  forall i st,
    import_loop policy validate names i (pre ++ rest) st
    = import_loop policy validate names (i + data_rows pre) rest
        (snd (import_loop policy validate names i pre st)).
Proof.
  induction pre as [|[[|c cs]|e] pre IH]; intros Hr i st.
  - simpl. now rewrite Nat.add_0_r.
  - simpl. apply IH, Hr.
  - destruct (import_row_returns policy validate i (zip_row names (c :: cs)) st)
      as [st' Hst'].
    change ((Line (c :: cs) :: pre) ++ rest) with (Line (c :: cs) :: pre ++ rest).
    rewrite !(import_loop_step _ _ _ _ _ _ _ _ _ Hst').
    rewrite (IH Hr). cbn [data_rows]. now rewrite Nat.add_succ_r.
  - discriminate.
Qed.

(** A reader error ends the import where it occurs: the rows before it
    are applied exactly as if the file ended there, the summary is the
    one of that shorter file with one "Failed to import CSV" message
    added, and whatever follows the error is not looked at.  A file
    that cannot be opened gives that message alone. *)
Theorem import_csv_stops_at_reader_error
  (students : list Student) (csv_path : string) (names : list string)
  (pre post : list reader_item) (e : exn)
  (duplicate_policy : string) (validate_marks : bool) :
  header_rejected names = false ->
  readable pre = true ->
  (exists out students',
      import_csv students csv_path (Exists (Ok (Line names :: pre)))
        duplicate_policy validate_marks = (Ok out, students')
      /\ import_csv students csv_path
           (Exists (Ok (Line names :: pre ++ ReadError e :: post)))
           duplicate_policy validate_marks
         = (Ok (append_error ("Failed to import CSV: " ++ str_exn e) out), students'))
  /\ import_csv students csv_path (Exists (Raise e)) duplicate_policy validate_marks
     = (Ok (append_error ("Failed to import CSV: " ++ str_exn e) empty_summary),
        students).
Proof.
  intros Hh Hr. split; [|reflexivity].
  rewrite !(import_csv_as_loop _ _ _ _ _ _ Hh).
  rewrite (import_loop_app _ _ _ pre (ReadError e :: post) Hr).
  destruct (import_loop_readable duplicate_policy validate_marks names pre Hr 2
              (mkState students empty_summary)) as [Hok _].
  destruct (import_loop duplicate_policy validate_marks names 2 pre
              (mkState students empty_summary)) as [r st].
  cbn [fst snd] in *. subst r.
  exists (summary st), (self_students st). split; reflexivity.
Qed.

End ImportRuns.

(* ------------------------------------------------------------------ *)
(** ** Which rows are invalid; importing a file twice *)

Section ImportCounts.
Context {F : PyFloat}.

(** Whatever passes with the range check passes without it. *)
Lemma validate_row_without_range row p :
  validate_row true row = Ok p -> validate_row false row = Ok p.
Proof.
  unfold validate_row, and_then.
  destruct (strip_cell (dict_get_default row "roll_no" "")); [|discriminate].
  destruct (strip_cell (dict_get_default row "marks" "")); [|discriminate].
  destruct (negb (isdigit a)); [discriminate|].
  destruct (py_int a); [|discriminate].
  destruct (py_float a0); [|discriminate].
  cbn [andb].
  destruct (negb (float_leb float_0 f && float_leb f float_100));
    [discriminate|]. auto.
Qed.

Lemma import_row_known_policy_counts policy validate names i cells st st' :
  known_policy policy ->
  import_row policy validate i (zip_row names cells) st = (Ok tt, st') ->
  invalid_rows (summary st')
  = invalid_rows (summary st)
    + (if row_valid validate names cells then 0 else 1).
Proof.
  intros Hk H. unfold row_valid.
  destruct (validate_row validate (zip_row names cells)) as [p|e] eqn:Hv.
  - destruct (get_student_by_roll (self_students st) (p_roll_no p)) as [s|] eqn:Hg.
    + destruct Hk as [-> | [-> | ->]].
      * rewrite (import_row_skip _ _ _ _ _ _ Hv Hg) in H.
        injection H as <-. simpl. lia.
      * rewrite (import_row_overwrite _ _ _ _ _ _ Hv Hg) in H.
        injection H as <-. simpl. lia.
      * rewrite (import_row_reassign _ _ _ _ _ _ Hv Hg) in H.
        injection H as <-. simpl. lia.
    + rewrite (import_row_new _ _ _ _ _ _ Hv Hg) in H.
      injection H as <-. simpl. lia.
  - rewrite (import_row_invalid _ _ _ _ _ _ Hv) in H.
    injection H as <-. simpl. lia.
Qed.

Lemma import_loop_known_policy_counts policy validate names lines :
  known_policy policy ->
  forall i st,
    let st' := snd (import_loop policy validate names i lines st) in
    read_rows (summary st')
    = read_rows (summary st) + List.length (processed_rows lines)
    /\ invalid_rows (summary st')
       = invalid_rows (summary st)
         + count_invalid validate names (processed_rows lines).
Proof.
  intros Hk. unfold count_invalid.
  induction lines as [|[[|c cs]|e] rest IH]; intros i st; cbv zeta.
  - simpl. lia.
  - simpl. apply IH.
  - destruct (import_row_returns policy validate i (zip_row names (c :: cs)) st)
      as [st1 Hst1].
    rewrite (import_loop_step _ _ _ _ _ _ _ _ _ Hst1).
    destruct (IH (S i) st1) as [H1 H2]. cbv zeta in H1, H2.
    rewrite H1, H2, (import_row_read_rows _ _ _ _ _ _ Hst1),
      (import_row_known_policy_counts _ _ _ _ _ _ _ Hk Hst1).
    cbn [processed_rows filter List.length].
    destruct (row_valid validate names (c :: cs)); simpl; lia.
  - simpl. lia.
Qed.

(** Under a known policy, after a header that passes, the rows counted
    invalid are exactly the rows that fail validation, and the rows read
    are the non-empty records before the first reader error: neither
    number depends on what the store holds. *)
Theorem import_csv_invalid_rows_are_validation_failures
  (students : list Student) (csv_path : string) (names : list string)
  (rest : list reader_item) (duplicate_policy : string) (validate_marks : bool) :
  header_rejected names = false ->
  known_policy duplicate_policy ->
  exists out students',
    import_csv students csv_path (Exists (Ok (Line names :: rest)))
      duplicate_policy validate_marks = (Ok out, students')
    /\ read_rows out = List.length (processed_rows rest)
    /\ invalid_rows out = count_invalid validate_marks names (processed_rows rest).
Proof.
  intros Hh Hk. rewrite (import_csv_as_loop _ _ _ _ _ _ Hh).
  destruct (import_loop_known_policy_counts duplicate_policy validate_marks names
              rest Hk 2 (mkState students empty_summary)) as [H1 H2].
  cbv zeta in H1, H2.
  destruct (import_loop duplicate_policy validate_marks names 2 rest
              (mkState students empty_summary)) as [[[]|e] st];
    cbn [snd] in H1, H2; eexists _, _; (split; [reflexivity|]);
    simpl in *; split; assumption.
Qed.

Lemma count_invalid_without_range names rows :
  count_invalid false names rows <= count_invalid true names rows.
Proof.
  unfold count_invalid. induction rows as [|cells rows IH]; [simpl; lia|].
  cbn [filter].
  destruct (row_valid true names cells) eqn:Et.
  - assert (row_valid false names cells = true) as ->.
    { unfold row_valid in *.
      destruct (validate_row true (zip_row names cells)) eqn:E; [|discriminate].
      now rewrite (validate_row_without_range _ _ E). }
    simpl. exact IH.
  - destruct (row_valid false names cells); simpl; lia.
Qed.

(** Switching the range check off never makes more rows invalid: on one
    file and under a known policy, [invalid_rows] without the check is at
    most [invalid_rows] with it, whatever the two stores hold, and the
    same rows are read. *)
Theorem import_csv_without_range_check_rejects_no_more
  (students students2 : list Student) (csv_path : string) (names : list string)
  (rest : list reader_item) (duplicate_policy : string) :
  header_rejected names = false ->
  known_policy duplicate_policy ->
  exists checked unchecked stored stored2,
    import_csv students csv_path (Exists (Ok (Line names :: rest)))
      duplicate_policy true = (Ok checked, stored)
    /\ import_csv students2 csv_path (Exists (Ok (Line names :: rest)))
         duplicate_policy false = (Ok unchecked, stored2)
    /\ invalid_rows unchecked <= invalid_rows checked
    /\ read_rows unchecked = read_rows checked.
Proof.
  intros Hh Hk. rewrite !(import_csv_as_loop _ _ _ _ _ _ Hh).
  destruct (import_loop_known_policy_counts duplicate_policy true names
              rest Hk 2 (mkState students empty_summary)) as [H1 H2].
  destruct (import_loop_known_policy_counts duplicate_policy false names
              rest Hk 2 (mkState students2 empty_summary)) as [K1 K2].
  cbv zeta in H1, H2, K1, K2.
  pose proof (count_invalid_without_range names (processed_rows rest)) as Hle.
  destruct (import_loop duplicate_policy true names 2 rest
              (mkState students empty_summary)) as [r1 st1].
  destruct (import_loop duplicate_policy false names 2 rest
              (mkState students2 empty_summary)) as [r2 st2].
  cbn [snd] in *.
  destruct r1 as [[]|e1], r2 as [[]|e2]; eexists _, _, _, _;
    (split; [reflexivity|]); (split; [reflexivity|]); simpl in *; lia.
Qed.

Lemma import_row_rolls_incl policy validate i row st st' :
  import_row policy validate i row st = (Ok tt, st') ->
  incl (rolls (self_students st)) (rolls (self_students st')).
Proof.
  intros H.
  destruct (import_row_cases policy validate i row st) as (st1 & H1 & Hc).
  rewrite H in H1. injection H1 as <-.
  destruct Hc as [(e & ->)|[(p & _ & _ & ->)|(p & s & _ & _ & Hc)]];
    [| |destruct Hc as [(_ & ->)|[(_ & ->)|(_ & ->)]]];
    cbn [self_students]; rewrite ?rolls_snoc, ?rolls_mutate_first by reflexivity;
    try apply incl_refl; apply incl_appl, incl_refl.
Qed.

Lemma import_loop_rolls_incl policy validate names lines i st :
  incl (rolls (self_students st))
       (rolls (self_students (snd (import_loop policy validate names i lines st)))).
Proof.
  apply (import_loop_invariant
           (fun s => incl (rolls (self_students st)) (rolls (self_students s)))).
  - intros j row s s' Hrow Hs. eapply incl_tran; [exact Hs|].
    eapply import_row_rolls_incl; eassumption.
  - apply incl_refl.
Qed.

Lemma rerun_related_refl m1 m2 : rerun_related m1 m1 m2 m2.
Proof.
  unfold rerun_related. repeat split; try lia.
  exists []. now rewrite !app_nil_r.
Qed.

(** The loop under "skip" on a store that already holds every roll
    number the first run ends with: nothing is stored, and the summary
    moves as [rerun_related] says. *)
Lemma import_loop_skip_rerun validate names lines :
  forall i st1 st2,
    incl (rolls (self_students
                   (snd (import_loop "skip" validate names i lines st1))))
         (rolls (self_students st2)) ->
    let r1 := import_loop "skip" validate names i lines st1 in
    let r2 := import_loop "skip" validate names i lines st2 in
    fst r2 = fst r1
    /\ self_students (snd r2) = self_students st2
    /\ rerun_related (summary st1) (summary (snd r1))
                     (summary st2) (summary (snd r2)).
Proof.
  induction lines as [|[[|c cs]|e] rest IH]; intros i st1 st2 Hin; cbv zeta.
  - simpl. repeat split. apply rerun_related_refl.
  - simpl. apply IH. exact Hin.
  - set (row := zip_row names (c :: cs)).
    destruct (import_row_returns "skip" validate i row st1) as [st1' H1].
    rewrite (import_loop_step _ _ _ _ _ _ _ _ _ H1) in Hin |- *.
    assert (Hkeys : incl (rolls (self_students st1')) (rolls (self_students st2))).
    { eapply incl_tran; [apply import_loop_rolls_incl|exact Hin]. }
    assert (Hstep : exists st2',
               import_row "skip" validate i row st2 = (Ok tt, st2')
               /\ self_students st2' = self_students st2
               /\ rerun_related (summary st1) (summary st1')
                                (summary st2) (summary st2')).
    { destruct (validate_row validate row) as [p|e] eqn:Hv.
      - assert (Hk2 : In (p_roll_no p) (rolls (self_students st1'))).
        { destruct (get_student_by_roll (self_students st1) (p_roll_no p))
            as [s|] eqn:Hg.
          - rewrite (import_row_skip _ _ _ _ _ _ Hv Hg) in H1.
            injection H1 as <-. cbn [self_students].
            destruct (get_student_by_roll_split _ _ _ Hg) as (Hr & _).
            unfold get_student_by_roll in Hg. apply find_some in Hg as [Hs _].
            rewrite <- Hr. unfold rolls. now apply in_map.
          - rewrite (import_row_new _ _ _ _ _ _ Hv Hg) in H1.
            injection H1 as <-. cbn [self_students].
            rewrite rolls_snoc. apply in_or_app. right. simpl. auto. }
        destruct (get_student_by_roll (self_students st2) (p_roll_no p))
          as [s2|] eqn:Hg2.
        2:{ exfalso. apply get_student_by_roll_none in Hg2. apply Hg2, Hkeys, Hk2. }
        eexists. split; [eapply import_row_skip; eassumption|].
        split; [reflexivity|].
        destruct (get_student_by_roll (self_students st1) (p_roll_no p))
          as [s|] eqn:Hg.
        + rewrite (import_row_skip _ _ _ _ _ _ Hv Hg) in H1. injection H1 as <-.
          unfold rerun_related. simpl. repeat split; try lia.
          exists []. now rewrite !app_nil_r.
        + rewrite (import_row_new _ _ _ _ _ _ Hv Hg) in H1. injection H1 as <-.
          unfold rerun_related. simpl. repeat split; try lia.
          exists []. now rewrite !app_nil_r.
      - rewrite (import_row_invalid _ _ _ _ _ _ Hv) in H1. injection H1 as <-.
        eexists. split; [eapply import_row_invalid; eassumption|].
        split; [reflexivity|].
        unfold rerun_related. simpl. repeat split; try lia.
        eexists. split; reflexivity. }
    destruct Hstep as (st2' & H2 & Hs2 & Hrel).
    rewrite (import_loop_step _ _ _ _ _ _ _ _ _ H2).
    destruct (IH (S i) st1' st2') as (E1 & E2 & E3).
    { now rewrite Hs2. }
    cbv zeta in E1, E2, E3. split; [exact E1|]. split; [congruence|].
    destruct Hrel as (a1 & a2 & a3 & a4 & a5 & a6 & errs & a7 & a8).
    destruct E3 as (b1 & b2 & b3 & b4 & b5 & b6 & errs' & b7 & b8).
    unfold rerun_related. repeat split; try lia.
    exists (errs ++ errs'). rewrite b7, b8, a7, a8, !app_assoc. split; reflexivity.
  - simpl. repeat split. apply rerun_related_refl.
Qed.

(** Importing one file twice under "skip": the second import stores
    nothing and imports nothing; it skips what the first imported or
    skipped and reports the same invalid rows with the same messages. *)
Theorem import_csv_skip_twice_changes_nothing
  (students : list Student) (csv_path : string) (file : csv_file)
  (validate_marks : bool) :
  exists first stored second,
    import_csv students csv_path file "skip" validate_marks = (Ok first, stored)
    /\ import_csv stored csv_path file "skip" validate_marks = (Ok second, stored)
    /\ imported second = 0
    /\ skipped_duplicates second = imported first + skipped_duplicates first
    /\ read_rows second = read_rows first
    /\ invalid_rows second = invalid_rows first
    /\ errors second = errors first.
Proof.
  destruct file as [|[[|[names|e] rest]|e]];
    try (eexists _, _, _; split; [reflexivity|]; split; [reflexivity|];
         repeat split; fail).
  destruct (header_rejected names) eqn:Hh.
  { exists header_failure, students, header_failure.
    rewrite !(import_csv_header_rejected _ _ _ _ _ _ Hh). repeat split. }
  assert (Ex : forall l, import_csv l csv_path (Exists (Ok (Line names :: rest)))
                 "skip" validate_marks
               = match import_loop "skip" validate_marks names 2 rest
                         (mkState l empty_summary) with
                 | (Ok _, st) => (Ok (summary st), self_students st)
                 | (Raise e, st) =>
                     (Ok (append_error ("Failed to import CSV: " ++ str_exn e)
                            (summary st)), self_students st)
                 end)
    by (intros l; apply import_csv_as_loop, Hh).
  destruct (import_loop "skip" validate_marks names 2 rest
              (mkState students empty_summary)) as [r1 st1] eqn:E1.
  pose proof (import_loop_skip_rerun validate_marks names rest 2
                (mkState students empty_summary)
                (mkState (self_students st1) empty_summary)) as H.
  rewrite E1 in H. cbn [fst snd self_students summary] in H.
  destruct (H (incl_refl _)) as (Hf & Hs & Hrel). clear H.
  destruct (import_loop "skip" validate_marks names 2 rest
              (mkState (self_students st1) empty_summary)) as [r2 st2] eqn:E2.
  cbn [fst snd] in Hf, Hs, Hrel. subst r2.
  destruct Hrel as (a1 & a2 & a3 & a4 & a5 & a6 & errs & a7 & a8).
  simpl in a1, a2, a3, a4, a5, a6, a7, a8.
  destruct r1 as [[]|e].
  - exists (summary st1), (self_students st1), (summary st2).
    rewrite !Ex, E1, E2, Hs, a7, a8. repeat split; lia.
  - exists (append_error ("Failed to import CSV: " ++ str_exn e) (summary st1)),
           (self_students st1),
           (append_error ("Failed to import CSV: " ++ str_exn e) (summary st2)).
    rewrite !Ex, E1, E2, Hs. simpl. rewrite a7, a8. repeat split; lia.
Qed.

End ImportCounts.

(* ------------------------------------------------------------------ *)
(** ** Columns are read by name *)

Section Columns.
Context {F : PyFloat}.

Lemma zip_row_combine names : forall cells,
  List.length cells = List.length names ->
  zip_row names cells
  = map (fun kc => (fst kc, Some (snd kc))) (combine names cells).
Proof.
  induction names as [|k ks IH]; intros [|c cs] H; simpl in *;
    try reflexivity; try discriminate.
  rewrite IH by lia. reflexivity.
Qed.

Lemma map_fst_combine (names : list string) : forall cells : list string,
  List.length cells = List.length names ->
  map fst (combine names cells) = names.
Proof.
  induction names as [|k ks IH]; intros [|c cs] H; simpl in *;
    try reflexivity; try discriminate.
  rewrite IH by lia. reflexivity.
Qed.

Lemma dict_get_None (d : row_dict) k :
  dict_get d k = None <-> ~ In k (map fst d).
Proof.
  induction d as [|[k' v'] d IH]; simpl; [tauto|].
  destruct (dict_get d k) as [w|].
  - split; [discriminate|]. intros H. exfalso.
    assert (Some w = None) by (apply IH; tauto). discriminate.
  - destruct (String.eqb k' k) eqn:E.
    + apply String.eqb_eq in E. split; [discriminate|tauto].
    + apply String.eqb_neq in E. split; [|reflexivity].
      intros _ [H|H]; [contradiction|]. now apply IH.
Qed.

Lemma dict_get_In (d : row_dict) k v :
  NoDup (map fst d) -> (dict_get d k = Some v <-> In (k, v) d).
Proof.
  induction d as [|[k' v'] d IH]; simpl; intros Hu.
  - split; [discriminate|tauto].
  - inversion Hu as [|? ? Hn Hd]; subst. specialize (IH Hd).
    destruct (dict_get d k) as [w|] eqn:Eg.
    + split.
      * intros H. injection H as <-. right. now apply IH.
      * intros [H|H].
        -- injection H as -> ->. exfalso.
           assert (Hnone : dict_get d k = None) by now apply dict_get_None.
           congruence.
        -- apply IH in H. congruence.
    + destruct (String.eqb k' k) eqn:E.
      * apply String.eqb_eq in E. subst k'. split.
        -- intros H. injection H as <-. now left.
        -- intros [H|H]; [now injection H as ->|].
           apply IH in H. discriminate.
      * apply String.eqb_neq in E. split; [discriminate|].
        intros [H|H]; [injection H as -> _; contradiction|].
        apply IH in H. discriminate.
Qed.

Lemma dict_get_perm (d d' : row_dict) k :
  NoDup (map fst d) -> Permutation d d' -> dict_get d k = dict_get d' k.
Proof.
  intros Hu Hp.
  assert (Hu' : NoDup (map fst d'))
    by (eapply Permutation_NoDup; [apply Permutation_map, Hp|exact Hu]).
  destruct (dict_get d k) as [v|] eqn:E.
  - symmetry. apply dict_get_In; [exact Hu'|].
    eapply Permutation_in; [exact Hp|]. now apply dict_get_In.
  - symmetry. apply dict_get_None. intros Hin.
    apply dict_get_None in E. apply E.
    eapply Permutation_in; [apply Permutation_map; symmetry; exact Hp|exact Hin].
Qed.

Lemma validate_row_ext validate (d d' : row_dict) :
  (forall k, dict_get d k = dict_get d' k) ->
  validate_row validate d = validate_row validate d'.
Proof.
  intros H. unfold validate_row, dict_get_default, get_or_empty.
  now rewrite !H.
Qed.

(** A row is read by column name: rearranging the columns of the header
    and of the row in the same way gives the same outcome for the row,
    when no column name is repeated and the row has a cell for every
    column. *)
Theorem import_row_independent_of_column_order
  (names cells names' cells' : list string)
  (duplicate_policy : string) (validate_marks : bool) (i : nat) (st : istate) :
  List.length cells = List.length names ->
  List.length cells' = List.length names' ->
  NoDup names ->
  Permutation (combine names cells) (combine names' cells') ->
  validate_row validate_marks (zip_row names cells)
  = validate_row validate_marks (zip_row names' cells')
  /\ import_row duplicate_policy validate_marks i (zip_row names cells) st
     = import_row duplicate_policy validate_marks i (zip_row names' cells') st.
Proof.
  intros Hl Hl' Hu Hp.
  assert (Hv : validate_row validate_marks (zip_row names cells)
               = validate_row validate_marks (zip_row names' cells')).
  { apply validate_row_ext. intros k.
    rewrite (zip_row_combine _ _ Hl), (zip_row_combine _ _ Hl').
    apply dict_get_perm; [|now apply Permutation_map].
    rewrite map_map. cbn [fst].
    change (fun x : string * string => fst x) with (@fst string string).
    now rewrite map_fst_combine. }
  split; [exact Hv|].
  unfold import_row, row_body. now rewrite Hv.
Qed.

End Columns.

(* ------------------------------------------------------------------ *)
(** ** The data file *)

Section DataFile.
Context {F : PyFloat}.

Lemma with_store_loop_result {A : Type} (m : M istate A) self m0 :
  with_store m (mkP self m0)
  = (fst (m (mkState (srms_students self) m0)),
     mkP (mkSRMS (self_students (snd (m (mkState (srms_students self) m0))))
            (srms_data_file self))
         (summary (snd (m (mkState (srms_students self) m0))))).
Proof.
  unfold with_store. cbn [p_self p_summary].
  destruct (m (mkState (srms_students self) m0)). reflexivity.
Qed.

(** In memory [import_csv] does the same with or without the data file
    in the picture. *)
Lemma import_csv_saving_memory can_write self path file policy validate :
  fst (import_csv_saving can_write self path file policy validate)
  = fst (import_csv (srms_students self) path file policy validate)
  /\ srms_students (snd (import_csv_saving can_write self path file policy validate))
     = snd (import_csv (srms_students self) path file policy validate).
Proof.
  destruct file as [|[lines|e]]; [split; reflexivity| |split; reflexivity].
  unfold import_csv_saving, import_csv, try_except, import_try_saving, import_try,
    import_opened, bind, lift.
  destruct lines as [|[names|e] rest]; cbn [reader_fieldnames fst snd];
    [split; reflexivity| |split; reflexivity].
  destruct (header_rejected names); [split; reflexivity|].
  rewrite !with_store_loop_result.
  destruct (import_loop policy validate names 2 rest
              (mkState (srms_students self) empty_summary)) as [[[]|e] st];
    cbn [fst snd]; [|split; reflexivity].
  unfold modify, _save. cbn [fst snd p_self p_summary].
  destruct can_write; split; reflexivity.
Qed.

(** [import_csv] writes the data file once, and only when the loop has
    run to the end of the file: then (if the file can be written) the
    data file holds the store as the import left it.  A missing or
    unopenable CSV file, a header that fails the test and a reader
    error all leave the data file as it was, although the rows before a
    reader error stay applied in memory. *)
Theorem import_csv_saves_only_after_a_completed_loop
  (can_write : bool) (self : SRMS) (csv_path : string) (file : csv_file)
  (duplicate_policy : string) (validate_marks : bool) :
  let after :=
    snd (import_csv_saving can_write self csv_path file duplicate_policy
           validate_marks) in
  srms_students after
  = snd (import_csv (srms_students self) csv_path file duplicate_policy
           validate_marks)
  /\ (forall names rest,
        file = Exists (Ok (Line names :: rest)) ->
        header_rejected names = false -> readable rest = true ->
        srms_data_file after
        = if can_write then Some (srms_students after) else srms_data_file self)
  /\ ((file = NotFound
       \/ (exists e, file = Exists (Raise e))
       \/ file = Exists (Ok [])
       \/ (exists e rest, file = Exists (Ok (ReadError e :: rest)))
       \/ (exists names rest, file = Exists (Ok (Line names :: rest))
             /\ (header_rejected names = true \/ readable rest = false))) ->
      srms_data_file after = srms_data_file self).
Proof.
  cbv zeta. split; [apply import_csv_saving_memory|]. split.
  - intros names rest -> Hh Hr.
    unfold import_csv_saving, try_except, import_try_saving, bind, lift.
    cbn [reader_fieldnames fst snd]. rewrite Hh, with_store_loop_result.
    destruct (import_loop_readable duplicate_policy validate_marks names rest Hr 2
                (mkState (srms_students self) empty_summary)) as [Hok _].
    destruct (import_loop duplicate_policy validate_marks names 2 rest
                (mkState (srms_students self) empty_summary)) as [r st].
    cbn [fst snd] in *. subst r.
    unfold modify, _save. cbn [fst snd p_self p_summary].
    destruct can_write; reflexivity.
  - intros [->|[(e & ->)|[->|[(e & rest & ->)|(names & rest & -> & H)]]]];
      try reflexivity.
    unfold import_csv_saving, try_except, import_try_saving, bind, lift.
    cbn [reader_fieldnames fst snd].
    destruct (header_rejected names) eqn:Hh; [reflexivity|].
    destruct H as [H|Hr]; [discriminate|].
    rewrite with_store_loop_result.
    assert (Hraise : exists e, fst (import_loop duplicate_policy validate_marks names 2
                                      rest (mkState (srms_students self) empty_summary))
                               = Raise e).
    { generalize 2 (mkState (srms_students self) empty_summary).
      induction rest as [|[[|c cs]|e] rest IH]; intros i st.
      - discriminate.
      - simpl. apply IH, Hr.
      - destruct (import_row_returns duplicate_policy validate_marks i
                    (zip_row names (c :: cs)) st) as [st' Hst'].
        rewrite (import_loop_step _ _ _ _ _ _ _ _ _ Hst'). apply IH, Hr.
      - exists e. reflexivity. }
    destruct Hraise as (e & He).
    destruct (import_loop duplicate_policy validate_marks names 2 rest
                (mkState (srms_students self) empty_summary)) as [r st].
    cbn [fst snd] in *. subst r. reflexivity.
Qed.

(** With a data file that can be written, [add_student],
    [delete_student] and [update_student] (with the keywords modelled:
    name, class, marks and a well-formed [__dict__], none of which makes
    [setattr] raise) leave the data file equal to the store whenever it
    was so before, whether they succeed or not; and whether or not the
    file can be written, what they do in memory is the same. *)
Theorem mutating_methods_keep_data_file_in_sync
  (can_write : bool) (self : SRMS) (s : Student) (r : Z) (kwargs : list kwarg) :
  ((fst (add_student_saving can_write self s),
    srms_students (snd (add_student_saving can_write self s)))
   = add_student (srms_students self) s
   /\ (fst (update_student_saving can_write self r kwargs),
       srms_students (snd (update_student_saving can_write self r kwargs)))
      = update_student (srms_students self) r kwargs
   /\ (fst (delete_student_saving can_write self r),
       srms_students (snd (delete_student_saving can_write self r)))
      = delete_student (srms_students self) r)
  /\ (can_write = true -> in_sync self ->
      in_sync (snd (add_student_saving can_write self s))
      /\ in_sync (snd (update_student_saving can_write self r kwargs))
      /\ in_sync (snd (delete_student_saving can_write self r))).
Proof.
  unfold add_student_saving, update_student_saving, delete_student_saving,
    add_student, update_student, delete_student, _save, in_sync.
  split.
  - destruct (get_student_by_roll (srms_students self) (roll_no s)),
             (get_student_by_roll (srms_students self) r), can_write;
      repeat split.
  - intros -> Hs.
    destruct (get_student_by_roll (srms_students self) (roll_no s)),
             (get_student_by_roll (srms_students self) r);
      repeat split; assumption.
Qed.

End DataFile.

(* ------------------------------------------------------------------ *)
(** ** The update branch of the menu *)

Section Menu.
Context {F : PyFloat}.

Lemma mutate_first_id r students : mutate_first r (fun s => s) students = students.
Proof.
  induction students as [|x l IH]; simpl; [reflexivity|].
  destruct (Z.eqb (roll_no x) r); [reflexivity|now rewrite IH].
Qed.

(** The keyword arguments the menu builds never assign a roll number and
    never an empty name or class; so an update made through the menu
    leaves every roll number as it was and keeps names and classes
    non-empty; and with three blank answers it changes no record. *)
Theorem menu_update_keeps_rolls_and_names
  (name_answer class_answer marks_answer : string) (kwargs : list kwarg)
  (students : list Student) (r : Z) :
  menu_update_kwargs name_answer class_answer marks_answer = Ok kwargs ->
  rolls (snd (update_student students r kwargs)) = rolls students
  /\ (Forall named students -> Forall named (snd (update_student students r kwargs)))
  /\ (strip name_answer = "" -> strip class_answer = "" -> strip marks_answer = "" ->
      snd (update_student students r kwargs) = students).
Proof.
  unfold menu_update_kwargs, and_then. intros H.
  assert (Hk : exists n c m,
             kwargs = [kw_name n; kw_class_name c; kw_marks m]
             /\ n <> Some "" /\ c <> Some ""
             /\ (strip name_answer = "" -> n = None)
             /\ (strip class_answer = "" -> c = None)
             /\ (strip marks_answer = "" -> m = None)).
  { destruct (is_empty (strip marks_answer)) eqn:Em.
    - injection H as <-. eexists _, _, _. split; [reflexivity|].
      repeat split.
      + destruct (strip name_answer); simpl; discriminate.
      + destruct (strip class_answer); simpl; discriminate.
      + intros ->. reflexivity.
      + intros ->. reflexivity.
    - destruct (py_float (strip marks_answer)); [|discriminate].
      injection H as <-. eexists _, _, _. split; [reflexivity|].
      repeat split.
      + destruct (strip name_answer); simpl; discriminate.
      + destruct (strip class_answer); simpl; discriminate.
      + intros ->. reflexivity.
      + intros ->. reflexivity.
      + intros E. rewrite E in Em. discriminate. }
  destruct Hk as (n & c & m & -> & Hn & Hc & Bn & Bc & Bm).
  assert (Hroll : Forall kw_keeps_roll [kw_name n; kw_class_name c; kw_marks m])
    by (repeat constructor).
  assert (Hnames : Forall kw_keeps_names [kw_name n; kw_class_name c; kw_marks m]).
  { repeat constructor; simpl.
    - destruct n; [congruence|exact I].
    - destruct c; [congruence|exact I]. }
  unfold update_student.
  destruct (get_student_by_roll students r); cbn [snd].
  - split; [|split].
    + apply rolls_mutate_first. intros x. now apply fold_setattr_keeps_roll.
    + intros Hall. apply mutate_first_Forall; [|exact Hall].
      intros x. now apply fold_setattr_keeps_named.
    + intros E1 E2 E3. rewrite (Bn E1), (Bc E2), (Bm E3). simpl.
      apply mutate_first_id.
  - repeat split; auto.
Qed.

End Menu.

(* ------------------------------------------------------------------ *)
(** ** Concrete runs *)

#[local] Existing Instance whole_marks.

(** C1 does not hold as stated: with an unknown policy, two rows whose
    roll number exists are each reported (lines 2 and 3), and the row
    after them (line 4) is still imported. *)
Lemma unknown_policy_reported_per_row_and_import_goes_on :
  import_csv [student 1 "Existing" "X" 55] "in.csv"
    (file_of_records
       [["roll_no"; "name"; "class_name"; "marks"];
        ["1"; "New"; "Y"; "99"];
        ["1"; "Newer"; "Z"; "98"];
        ["2"; "Brand New"; "Z"; "77"]])
    "merge" true
  = (Ok (mkSummary 3 1 0 0 0 2
           ["Line 2: Unknown duplicate_policy 'merge'";
            "Line 3: Unknown duplicate_policy 'merge'"]),
     [student 1 "Existing" "X" 55; student 2 "Brand New" "Z" 77]).
Proof. vm_compute. reflexivity. Qed.

Lemma unknown_policy_marks_row_invalid_and_continues_witness :
  import_loop "merge" true required 2
    [Line ["1"; "New"; "Y"; "99"]; Line ["2"; "Brand New"; "Z"; "77"]]
    (mkState [student 1 "Existing" "X" 55] empty_summary)
  = import_loop "merge" true required 3
      [Line ["2"; "Brand New"; "Z"; "77"]]
      (mkState [student 1 "Existing" "X" 55]
         (mkSummary 1 0 0 0 0 1 ["Line 2: Unknown duplicate_policy 'merge'"])).
Proof.
  apply (unknown_policy_marks_row_invalid_and_continues
           "merge" true required 2 "1" ["New"; "Y"; "99"]
           [Line ["2"; "Brand New"; "Z"; "77"]]
           (mkState [student 1 "Existing" "X" 55] empty_summary)
           (parsed 1 "New" "Y" 99) (student 1 "Existing" "X" 55)).
  - repeat split; discriminate.
  - reflexivity.
  - reflexivity.
Defined.


Lemma unique_rolls_preserved_without_roll_update_witness :
  NoDup (rolls (snd (import_csv [student 1 "A" "X" 10] "in.csv"
                       (file_of_records
                          [["roll_no"; "name"; "class_name"; "marks"];
                           ["1"; "New"; "Y"; "99"]])
                       "reassign" true))).
Proof.
  apply (unique_rolls_preserved_without_roll_update [student 1 "A" "X" 10]).
  repeat constructor. intros [].
Defined.

(** C4 does not hold as stated.  Each of these one- or two-record stores
    comes back different: a name with a leading space returns without it;
    a negative roll number, an empty name and (with the range validated)
    marks above 100 are refused as invalid rows; and of two records with
    one roll number the second is skipped. *)
Lemma round_trip_changes_or_drops_records :
  export_then_import [student 1 " Alice" "10-A" 88] "out.csv" true
    = Some (1, (Ok (mkSummary 1 1 0 0 0 0 []), [student 1 "Alice" "10-A" 88]))
  /\ export_then_import [student (-1) "Bob" "10-A" 76] "out.csv" true
      = Some (1, (Ok (mkSummary 1 0 0 0 0 1
                        ["Line 2: roll_no must be an integer"]), []))
  /\ export_then_import [student 1 "" "10-A" 76] "out.csv" true
      = Some (1, (Ok (mkSummary 1 0 0 0 0 1 ["Line 2: name cannot be empty"]), []))
  /\ export_then_import [student 1 "Bob" "10-A" 150] "out.csv" true
      = Some (1, (Ok (mkSummary 1 0 0 0 0 1
                        ["Line 2: marks must be between 0 and 100"]), []))
  /\ export_then_import [student 2 "A" "X" 10; student 2 "B" "Y" 20] "out.csv" true
      = Some (2, (Ok (mkSummary 2 1 1 0 0 0 []), [student 2 "A" "X" 10])).
Proof. vm_compute. repeat split. Qed.

Lemma export_then_import_restores_round_trip_records_witness :
  exists out,
    export_then_import
      [student 3 "Chirag Mehta" "10-B" 91; student 1 "Alice Johnson" "10-A" 88;
       student 2 "Bob Singh" "10-A" 76] "roundtrip.csv" true
    = Some (3,
            (Ok out,
             list_students
               [student 3 "Chirag Mehta" "10-B" 91;
                student 1 "Alice Johnson" "10-A" 88;
                student 2 "Bob Singh" "10-A" 76]))
    /\ imported out = 3
    /\ read_rows out = 3
    /\ errors out = []
    /\ (forall s,
          In s (list_students
                  [student 3 "Chirag Mehta" "10-B" 91;
                   student 1 "Alice Johnson" "10-A" 88;
                   student 2 "Bob Singh" "10-A" 76])
          <-> In s [student 3 "Chirag Mehta" "10-B" 91;
                    student 1 "Alice Johnson" "10-A" 88;
                    student 2 "Bob Singh" "10-A" 76]).
Proof.
  apply (export_then_import_restores_round_trip_records
           [student 3 "Chirag Mehta" "10-B" 91; student 1 "Alice Johnson" "10-A" 88;
            student 2 "Bob Singh" "10-A" 76] "roundtrip.csv" true).
  - repeat constructor; simpl; intuition discriminate.
  - repeat constructor; simpl; try discriminate; try lia.
Defined.


Lemma import_csv_returns_and_isolates_row_failures_witness :
  exists e,
    import_loop "skip" true required 2
      [Line ["abc"; "X"; "Y"; "10"]; Line ["5"; "Valid"; "10-A"; "90"]]
      (mkState [] empty_summary)
    = import_loop "skip" true required 3
        [Line ["5"; "Valid"; "10-A"; "90"]]
        (marked_invalid 2 e (mkState [] empty_summary)).
Proof.
  apply (proj1 (proj2 (import_csv_returns_and_isolates_row_failures
                         [] "in.csv" NotFound "skip" true))).
  apply fault_key_not_integer with (s := "abc"); reflexivity.
Defined.

Lemma reassign_appends_one_record_with_fresh_roll_witness :
  exists st',
    import_row "reassign" true 2
      (zip_row required ["1"; "Duplicate"; "B"; "70"])
      (mkState [student 1 "Keep Me" "A" 60] empty_summary)
    = (Ok tt, st')
    /\ self_students st' =
         [student 1 "Keep Me" "A" 60; student 2 "Duplicate" "B" 70].
Proof.
  destruct (reassign_appends_one_record_with_fresh_roll true 2
              (zip_row required ["1"; "Duplicate"; "B"; "70"])
              (mkState [student 1 "Keep Me" "A" 60] empty_summary)
              (parsed 1 "Duplicate" "B" 70) (student 1 "Keep Me" "A" 60)
              eq_refl eq_refl) as (st' & H1 & H2 & _).
  exists st'. split; [exact H1|exact H2].
Defined.

Lemma overwrite_replaces_fields_and_skip_keeps_record_witness :
  (exists st',
      import_row "overwrite" true 2
        (zip_row required ["1"; "New"; "Y"; "99"])
        (mkState [student 1 "Existing" "X" 55] empty_summary)
      = (Ok tt, st')
      /\ get_student_by_roll (self_students st') 1 = Some (student 1 "New" "Y" 99)
      /\ overwritten (summary st') = 1)
  /\ (exists st',
        import_row "skip" true 2
          (zip_row required ["1"; "New"; "Y"; "99"])
          (mkState [student 1 "Existing" "X" 55] empty_summary)
        = (Ok tt, st')
        /\ self_students st' = [student 1 "Existing" "X" 55]).
Proof.
  destruct (overwrite_replaces_fields_and_skip_keeps_record true 2
              (zip_row required ["1"; "New"; "Y"; "99"])
              (mkState [student 1 "Existing" "X" 55] empty_summary)
              (parsed 1 "New" "Y" 99) (student 1 "Existing" "X" 55)
              eq_refl eq_refl)
    as [(st1 & H1 & H2 & _ & _ & _ & H3) (st2 & K1 & K2 & _)].
  split.
  - exists st1. auto.
  - exists st2. auto.
Defined.

(** C10 does not hold as stated: [add_student] stores a record whose
    name and class are empty, and [update_student(1, name="")] empties
    the name of a record that had one. *)
Lemma add_and_update_store_empty_names :
  add_student [] (student 1 "" "" 0) = (true, [student 1 "" "" 0])
  /\ update_student [student 1 "Alice" "10-A" 88] 1 [kw_name (Some "")]
     = (true, [student 1 "" "10-A" 88]).
Proof. split; reflexivity. Qed.

Lemma nonempty_names_preserved_by_import_and_checked_callers_witness :
  Forall named
    (snd (import_csv [student 1 "Existing" "X" 55] "in.csv"
            (file_of_records
               [["roll_no"; "name"; "class_name"; "marks"];
                ["1"; "New"; "Y"; "99"];
                ["2"; "  "; "Z"; "77"]])
            "overwrite" true)).
Proof.
  apply (nonempty_names_preserved_by_import_and_checked_callers
           [student 1 "Existing" "X" 55]).
  repeat constructor; discriminate.
Defined.

(* ------------------------------------------------------------------ *)
(** ** The scenarios of test_srms.py on the model *)

(** [test_import_csv_validation_errors]: four invalid rows, one imported. *)
Example import_validation_errors_run :
  import_csv [] "in_invalid.csv"
    (file_of_records
       [["roll_no"; "name"; "class_name"; "marks"];
        ["abc"; "X"; "Y"; "10"];
        ["2"; "Y"; "Z"; "ten"];
        ["3"; "Z"; "Z"; "150"];
        ["4"; ""; "Z"; "50"];
        ["5"; "Valid"; "10-A"; "90"]])
    "skip" true
  = (Ok (mkSummary 5 1 0 0 0 4
           ["Line 2: roll_no must be an integer";
            "Line 3: marks must be numeric";
            "Line 4: marks must be between 0 and 100";
            "Line 5: name cannot be empty"]),
     [student 5 "Valid" "10-A" 90]).
Proof. vm_compute. reflexivity. Qed.

(** [test_import_csv_no_marks_validation_allows_out_of_range] *)
Example import_without_range_validation_run :
  import_csv [] "in_no_validate.csv"
    (file_of_records
       [["roll_no"; "name"; "class_name"; "marks"];
        ["1"; "OutOfRange"; "10-A"; "150"]])
    "skip" false
  = (Ok (mkSummary 1 1 0 0 0 0 []), [student 1 "OutOfRange" "10-A" 150]).
Proof. vm_compute. reflexivity. Qed.

(** [test_import_csv_skip_duplicates] *)
Example import_skip_run :
  import_csv [student 1 "Existing" "X" 55] "in_skip.csv"
    (file_of_records
       [["roll_no"; "name"; "class_name"; "marks"];
        ["1"; "NewName"; "Y"; "99"];
        ["2"; "Brand New"; "Z"; "77"]])
    "skip" true
  = (Ok (mkSummary 2 1 1 0 0 0 []),
     [student 1 "Existing" "X" 55; student 2 "Brand New" "Z" 77]).
Proof. vm_compute. reflexivity. Qed.

(** A roll number written with a superscript two passes [isdigit] and
    fails in [int]; a record shorter than the header has [None] cells; and
    a reader error ends the import with the rows before it applied.  None
    of them leaves [import_csv] as an exception. *)
Example import_other_row_errors_run :
  import_csv [] "in.csv"
    (Exists (Ok [Line ["roll_no"; "name"; "class_name"; "marks"];
                 Line [String (ascii_of_nat 178) ""; "A"; "X"; "10"];
                 Line ["3"];
                 Line [];
                 Line ["4"; "D"; "X"; "40"];
                 ReadError (CsvError "field larger than field limit (131072)");
                 Line ["5"; "E"; "X"; "50"]]))
    "skip" true
  = (Ok (mkSummary 3 1 0 0 0 2
           [("Line 2: invalid literal for int() with base 10: '"
               ++ String (ascii_of_nat 178) "'")%string;
            "Line 3: 'NoneType' object has no attribute 'strip'";
            "Failed to import CSV: field larger than field limit (131072)"]),
     [student 4 "D" "X" 40]).
Proof. vm_compute. reflexivity. Qed.

(* ------------------------------------------------------------------ *)
(** ** Concrete runs of the store, listing, search and import properties *)

Lemma delete_student_removes_the_record_witness :
  get_student_by_roll
    (snd (delete_student [student 7 "To Delete" "9-B" 60; student 8 "Stay" "9-B" 61] 7))
    7 = None
  /\ get_student_by_roll
       (snd (delete_student [student 7 "To Delete" "9-B" 60; student 8 "Stay" "9-B" 61] 7))
       8 = Some (student 8 "Stay" "9-B" 61).
Proof.
  destruct (delete_student_removes_the_record
              [student 7 "To Delete" "9-B" 60; student 8 "Stay" "9-B" 61] 7)
    as (_ & _ & H3 & H4).
  - repeat constructor; simpl; intuition discriminate.
  - split.
    + apply H3. reflexivity.
    + rewrite H4 by discriminate. reflexivity.
Defined.

Lemma add_then_delete_restores_store_witness :
  delete_student
    (snd (add_student [student 1 "Alice Johnson" "10-A" 88] (student 2 "Bob Singh" "10-A" 76)))
    2
  = (true, [student 1 "Alice Johnson" "10-A" 88]).
Proof.
  apply (add_then_delete_restores_store
           [student 1 "Alice Johnson" "10-A" 88] (student 2 "Bob Singh" "10-A" 76)).
  reflexivity.
Defined.

Lemma update_student_dict_roll_unique_iff_fresh_witness :
  (NoDup (rolls (snd (update_student
                        [student 1 "A" "X" 10; student 2 "B" "Y" 20] 1
                        [kw_dict (Some (student 5 "A" "X" 10))])))
   <-> ~ In 5%Z (rolls [student 1 "A" "X" 10; student 2 "B" "Y" 20]))
  /\ (~ In 5%Z (rolls [student 1 "A" "X" 10; student 2 "B" "Y" 20]) ->
      get_student_by_roll
        (snd (update_student [student 1 "A" "X" 10; student 2 "B" "Y" 20] 1
                [kw_dict (Some (student 5 "A" "X" 10))])) 5
      = Some (student 5 "A" "X" 10)
      /\ get_student_by_roll
           (snd (update_student [student 1 "A" "X" 10; student 2 "B" "Y" 20] 1
                   [kw_dict (Some (student 5 "A" "X" 10))])) 1
         = None).
Proof.
  apply (update_student_dict_roll_unique_iff_fresh
           [student 1 "A" "X" 10; student 2 "B" "Y" 20] 1
           (student 1 "A" "X" 10) (student 5 "A" "X" 10)).
  - repeat constructor; simpl; intuition discriminate.
  - reflexivity.
  - discriminate.
Defined.

Lemma export_csv_independent_of_insertion_order_witness :
  export_csv [student 3 "Three" "X" 30; student 1 "One" "X" 10; student 2 "Two" "X" 20]
    true
  = export_csv [student 2 "Two" "X" 20; student 3 "Three" "X" 30; student 1 "One" "X" 10]
      true.
Proof.
  apply (export_csv_independent_of_insertion_order
           [student 3 "Three" "X" 30; student 1 "One" "X" 10; student 2 "Two" "X" 20]
           [student 2 "Two" "X" 20; student 3 "Three" "X" 30; student 1 "One" "X" 10]
           true).
  - repeat constructor; simpl; intuition discriminate.
  - apply Permutation_sym, Permutation_cons_app with (l1 := [student 3 "Three" "X" 30; student 1 "One" "X" 10]) (l2 := []).
    simpl. apply Permutation_refl.
Defined.

Lemma search_by_name_finds_any_stretch_of_the_name_in_any_case_witness :
  In (student 1 "Alice Johnson" "10-A" 88)
     (search_by_name
        [student 1 "Alice Johnson" "10-A" 88; student 2 "Bob Singh" "10-A" 76]
        "  ALI ")
  /\ In (student 1 "Alice Johnson" "10-A" 88)
        (search_by_name
           [student 1 "Alice Johnson" "10-A" 88; student 2 "Bob Singh" "10-A" 76]
           "Alice Johnson").
Proof.
  destruct (search_by_name_finds_any_stretch_of_the_name_in_any_case
              [student 1 "Alice Johnson" "10-A" 88; student 2 "Bob Singh" "10-A" 76]
              (student 1 "Alice Johnson" "10-A" 88)) as [H1 H2].
  - simpl. auto.
  - split; [|exact H2].
    apply (H1 "  ALI " "" "Ali" "ce Johnson"); reflexivity.
Defined.

Lemma import_csv_stops_at_reader_error_witness :
  exists out students',
    import_csv [] "in.csv"
      (Exists (Ok [Line ["roll_no"; "name"; "class_name"; "marks"];
                   Line ["4"; "D"; "X"; "40"]]))
      "skip" true = (Ok out, students')
    /\ import_csv [] "in.csv"
         (Exists (Ok [Line ["roll_no"; "name"; "class_name"; "marks"];
                      Line ["4"; "D"; "X"; "40"];
                      ReadError (CsvError "line contains NUL");
                      Line ["5"; "E"; "X"; "50"]]))
         "skip" true
       = (Ok (append_error "Failed to import CSV: line contains NUL" out), students').
Proof.
  apply (proj1 (import_csv_stops_at_reader_error [] "in.csv"
                  ["roll_no"; "name"; "class_name"; "marks"]
                  [Line ["4"; "D"; "X"; "40"]] [Line ["5"; "E"; "X"; "50"]]
                  (CsvError "line contains NUL") "skip" true eq_refl eq_refl)).
Defined.

Lemma import_csv_invalid_rows_are_validation_failures_witness :
  exists out students',
    import_csv [student 5 "Existing" "X" 55] "in_invalid.csv"
      (Exists (Ok [Line ["roll_no"; "name"; "class_name"; "marks"];
                   Line ["abc"; "X"; "Y"; "10"];
                   Line ["3"; "Z"; "Z"; "150"];
                   Line ["5"; "Valid"; "10-A"; "90"]]))
      "overwrite" true = (Ok out, students')
    /\ read_rows out = 3
    /\ invalid_rows out = 2.
Proof.
  apply (import_csv_invalid_rows_are_validation_failures
           [student 5 "Existing" "X" 55] "in_invalid.csv"
           ["roll_no"; "name"; "class_name"; "marks"]
           [Line ["abc"; "X"; "Y"; "10"]; Line ["3"; "Z"; "Z"; "150"];
            Line ["5"; "Valid"; "10-A"; "90"]]
           "overwrite" true eq_refl).
  right; left; reflexivity.
Defined.

Lemma import_csv_without_range_check_rejects_no_more_witness :
  exists checked unchecked stored stored2,
    import_csv [] "in.csv"
      (Exists (Ok [Line ["roll_no"; "name"; "class_name"; "marks"];
                   Line ["3"; "Z"; "Z"; "150"]]))
      "skip" true = (Ok checked, stored)
    /\ import_csv [] "in.csv"
         (Exists (Ok [Line ["roll_no"; "name"; "class_name"; "marks"];
                      Line ["3"; "Z"; "Z"; "150"]]))
         "skip" false = (Ok unchecked, stored2)
    /\ invalid_rows unchecked <= invalid_rows checked
    /\ read_rows unchecked = read_rows checked.
Proof.
  apply (import_csv_without_range_check_rejects_no_more [] [] "in.csv"
           ["roll_no"; "name"; "class_name"; "marks"]
           [Line ["3"; "Z"; "Z"; "150"]] "skip" eq_refl).
  left; reflexivity.
Defined.

Lemma import_row_independent_of_column_order_witness :
  validate_row true
    (zip_row ["roll_no"; "name"; "class_name"; "marks"] ["2"; "Bob"; "10-A"; "76"])
  = validate_row true
      (zip_row ["name"; "roll_no"; "class_name"; "marks"] ["Bob"; "2"; "10-A"; "76"])
  /\ import_row "skip" true 2
       (zip_row ["roll_no"; "name"; "class_name"; "marks"] ["2"; "Bob"; "10-A"; "76"])
       (mkState [] empty_summary)
     = import_row "skip" true 2
         (zip_row ["name"; "roll_no"; "class_name"; "marks"] ["Bob"; "2"; "10-A"; "76"])
         (mkState [] empty_summary).
Proof.
  apply (import_row_independent_of_column_order
           ["roll_no"; "name"; "class_name"; "marks"] ["2"; "Bob"; "10-A"; "76"]
           ["name"; "roll_no"; "class_name"; "marks"] ["Bob"; "2"; "10-A"; "76"]
           "skip" true 2 (mkState [] empty_summary)).
  - reflexivity.
  - reflexivity.
  - repeat constructor; simpl; intuition discriminate.
  - simpl. apply perm_swap.
Defined.

(** The data file after a reader error: the row before the error is in
    memory, the data file still holds what it held. *)
Lemma import_csv_saves_only_after_a_completed_loop_witness :
  srms_students
    (snd (import_csv_saving true (mkSRMS [] (Some [])) "in.csv"
            (Exists (Ok [Line ["roll_no"; "name"; "class_name"; "marks"];
                         Line ["4"; "D"; "X"; "40"];
                         ReadError (CsvError "line contains NUL")]))
            "skip" true))
  = [student 4 "D" "X" 40]
  /\ srms_data_file
       (snd (import_csv_saving true (mkSRMS [] (Some [])) "in.csv"
               (Exists (Ok [Line ["roll_no"; "name"; "class_name"; "marks"];
                            Line ["4"; "D"; "X"; "40"];
                            ReadError (CsvError "line contains NUL")]))
               "skip" true))
     = Some [].
Proof.
  destruct (import_csv_saves_only_after_a_completed_loop true (mkSRMS [] (Some []))
              "in.csv"
              (Exists (Ok [Line ["roll_no"; "name"; "class_name"; "marks"];
                           Line ["4"; "D"; "X"; "40"];
                           ReadError (CsvError "line contains NUL")]))
              "skip" true) as (H1 & _ & H3).
  split.
  - rewrite H1. reflexivity.
  - rewrite H3; [reflexivity|].
    right; right; right; right.
    eexists _, _. split; [reflexivity|]. right. reflexivity.
Defined.

Lemma menu_update_keeps_rolls_and_names_witness :
  rolls (snd (update_student [student 5 "Name" "Class" 50] 5
                [kw_name (Some "New Name"); kw_class_name None; @kw_marks whole_marks (Some 97%Z)]))
  = rolls [student 5 "Name" "Class" 50].
Proof.
  apply (menu_update_keeps_rolls_and_names " New Name " "" "97"
           [kw_name (Some "New Name"); kw_class_name None; @kw_marks whole_marks (Some 97%Z)]
           [student 5 "Name" "Class" 50] 5).
  reflexivity.
Defined.
